(** * DistLoader: worker identity, channel reset and scoped warm-up

    A shallow embedding of [distributed/dist_loader.py].  The loader is an
    object whose methods mutate it, talk to [mp.Queue] objects that are shared
    by reference with the sampler, and may raise; the embedding therefore
    threads one system state through a small state-and-exception monad.

    Python integers are unbounded and are modelled by [Z].  Queue objects live
    in a store indexed by their address, so that "the same object" is equality
    of addresses.  Calls to [logging] are not modelled: they only format
    strings and do not touch the state the properties below are about. *)

From Stdlib Require Import ZArith Lia String Ascii DecimalString DecimalZ.
From stdpp Require Import base list strings gmap.

Set Warnings "-register-all".

Open Scope string_scope.
Open Scope list_scope.
Open Scope Z_scope.

(** ** Data model *)

(** Messages and placeholders are [Any] in the source. *)
Inductive value : Type :=
| VNone
| VInt (z : Z)
| VStr (s : string).

(** Exceptions.  [except RuntimeError] catches [RuntimeError] and every
    subclass of it ([NotImplementedError], [RecursionError], ...). *)
Inductive exc_class : Type :=
| RuntimeError
| RuntimeErrorSubclass (name : string)
| AttributeError
| OtherError (name : string).

(** An exception carries its class, its message and the exception that was
    being handled when it was raised (Python's implicit [__context__]). *)
Inductive exc : Type :=
| Exc (cls : exc_class) (msg : string) (context : option exc).

Definition exc_cls (e : exc) : exc_class := let 'Exc c _ _ := e in c.
Definition exc_msg (e : exc) : string := let 'Exc _ m _ := e in m.
Definition exc_context (e : exc) : option exc := let 'Exc _ _ c := e in c.

Definition is_runtime_error (e : exc) : bool :=
  match exc_cls e with
  | RuntimeError | RuntimeErrorSubclass _ => true
  | AttributeError | OtherError _ => false
  end.

(** Modelled from the spec: the class [DistContext] of
    [distributed/dist_context.py], a value type with the five fields of the
    spec's data model; the source constructs it with keyword arguments. *)
Record DistContext : Type := mkDistContext {
  world_size : Z;
  rank : Z;
  global_world_size : Z;
  global_rank : Z;
  group_name : string
}.

(** Address of an [mp.Queue] object in the store. *)
Definition ref : Type := nat.

(** Modelled from the spec: the class [DistNeighborSampler] of the package,
    as far as the loader touches it (the sampler collaborator of the spec's
    external interfaces): a mutable [channel] attribute, and
    [init_sampler_instance()], which either returns, leaving the per-worker
    instance ready, or raises the given exception. *)
Record DistNeighborSampler : Type := mkSampler {
  sampler_channel : option ref;
  init_raises : option exc;
  instance_ready : bool
}.

(** [DataLoaderIterator] of [torch_geometric.loader.base]: it defines
    [__len__] (the number of batches of the wrapped iterator) and no
    [__bool__], so its truth value is [len != 0]. *)
Record DataLoaderIterator : Type := mkIterator {
  iter_id : nat;
  iter_len : Z
}.

Definition iterator_truthy (it : DataLoaderIterator) : bool :=
  negb (iter_len it =? 0).

(** An instance attribute that may not have been assigned yet. *)
Inductive attr (A : Type) : Type :=
| Unset
| Attr (a : A).
Arguments Unset {A}.
Arguments Attr {A} a.

(** The loader object.  [prefetch_factor] and the number of batches belong to
    the data-loader class a concrete loader is mixed with; [class_name] is
    [self.__class__.__name__]. *)
Record DistLoader : Type := mkLoader {
  class_name : string;
  dist_sampler : option DistNeighborSampler;
  current_ctx : DistContext;
  channel : option ref;
  pid : Z;
  num_workers : Z;
  current_ctx_worker : attr DistContext;
  prefetch_factor : Z;
  _prefetch_old : attr Z;
  _iterator : attr (option DataLoaderIterator);
  num_batches : Z
}.

(** Observable effects, recorded in program order. *)
Inductive event : Type :=
| EvEmpty (q : ref) (answer : bool)
| EvGetNowait (q : ref) (m : value)
| EvGet (q : ref) (m : value)
| EvBarrier
| EvNewQueue (q : ref)
| EvSetChannel (q : ref)
| EvSetSamplerChannel (q : ref)
| EvInitSampler
| EvGetIterator (it : nat)
| EvDelIterator.

(** The system: the loader, the store of queue objects (each a FIFO list of
    messages, oldest first), the number of iterators created so far, and the
    trace of effects. *)
Record Sys : Type := mkSys {
  self : DistLoader;
  queues : list (list value);
  iterators_made : nat;
  trace : list event
}.

(** ** The monad *)

Inductive outcome (A : Type) : Type :=
| Return (a : A)
| Raise (e : exc)
| Blocked
| OutOfFuel.
Arguments Return {A} a.
Arguments Raise {A} e.
Arguments Blocked {A}.
Arguments OutOfFuel {A}.

Definition M (A : Type) : Type := Sys -> outcome A * Sys.

Definition ret {A} (a : A) : M A := fun s => (Return a, s).

Definition bind {A B} (m : M A) (k : A -> M B) : M B :=
  fun s =>
    match m s with
    | (Return a, s') => k a s'
    | (Raise e, s') => (Raise e, s')
    | (Blocked, s') => (Blocked, s')
    | (OutOfFuel, s') => (OutOfFuel, s')
    end.

Notation "'let*' x ':=' m 'in' k" := (bind m (fun x => k))
  (at level 10, x name, m at level 100, k at level 200).
Notation "m '>>' k" := (bind m (fun _ => k))
  (at level 80, right associativity).

Definition raise {A} (e : exc) : M A := fun s => (Raise e, s).
Definition block {A} : M A := fun s => (Blocked, s).
Definition get_self : M DistLoader := fun s => (Return (self s), s).
Definition get_queues : M (list (list value)) := fun s => (Return (queues s), s).

Definition put_self (l : DistLoader) : M unit :=
  fun s => (Return tt, mkSys l (queues s) (iterators_made s) (trace s)).
Definition put_queues (qs : list (list value)) : M unit :=
  fun s => (Return tt, mkSys (self s) qs (iterators_made s) (trace s)).
Definition emit (e : event) : M unit :=
  fun s => (Return tt, mkSys (self s) (queues s) (iterators_made s) (trace s ++ [e])).

(** [try: body except RuntimeError: handler]; the handler receives the
    exception being handled. *)
Definition try_except_RuntimeError {A} (body : M A) (handler : exc -> M A) : M A :=
  fun s =>
    match body s with
    | (Raise e, s') => if is_runtime_error e then handler e s' else (Raise e, s')
    | r => r
    end.

(** [while cond: body], unrolled at most [fuel] times. *)
Fixpoint while (fuel : nat) (cond : M bool) (body : M unit) : M unit :=
  match fuel with
  | O => fun s => (OutOfFuel, s)
  | S fuel' =>
      let* b := cond in
      if b then body >> while fuel' cond body else ret tt
  end.

(** Attribute access on [None]. *)
Definition none_has_no (name : string) : exc :=
  Exc AttributeError ("'NoneType' object has no attribute '" +:+ name +:+ "'") None.

(** Reading an instance attribute that was never assigned. *)
Definition no_attribute (cls name : string) : exc :=
  Exc AttributeError ("'" +:+ cls +:+ "' object has no attribute '" +:+ name +:+ "'") None.

(** Field updates of the loader object. *)
Definition set_channel (c : option ref) (l : DistLoader) : DistLoader :=
  mkLoader (class_name l) (dist_sampler l) (current_ctx l) c (pid l)
    (num_workers l) (current_ctx_worker l) (prefetch_factor l)
    (_prefetch_old l) (_iterator l) (num_batches l).

Definition set_dist_sampler (d : option DistNeighborSampler) (l : DistLoader) : DistLoader :=
  mkLoader (class_name l) d (current_ctx l) (channel l) (pid l)
    (num_workers l) (current_ctx_worker l) (prefetch_factor l)
    (_prefetch_old l) (_iterator l) (num_batches l).

Definition set_current_ctx_worker (c : DistContext) (l : DistLoader) : DistLoader :=
  mkLoader (class_name l) (dist_sampler l) (current_ctx l) (channel l) (pid l)
    (num_workers l) (Attr c) (prefetch_factor l)
    (_prefetch_old l) (_iterator l) (num_batches l).

Definition set_prefetch_factor (p : Z) (l : DistLoader) : DistLoader :=
  mkLoader (class_name l) (dist_sampler l) (current_ctx l) (channel l) (pid l)
    (num_workers l) (current_ctx_worker l) p
    (_prefetch_old l) (_iterator l) (num_batches l).

Definition set_prefetch_old (p : Z) (l : DistLoader) : DistLoader :=
  mkLoader (class_name l) (dist_sampler l) (current_ctx l) (channel l) (pid l)
    (num_workers l) (current_ctx_worker l) (prefetch_factor l)
    (Attr p) (_iterator l) (num_batches l).

Definition set_iterator (i : attr (option DataLoaderIterator)) (l : DistLoader) : DistLoader :=
  mkLoader (class_name l) (dist_sampler l) (current_ctx l) (channel l) (pid l)
    (num_workers l) (current_ctx_worker l) (prefetch_factor l)
    (_prefetch_old l) i (num_batches l).

Definition modify_self (f : DistLoader -> DistLoader) : M unit :=
  let* l := get_self in put_self (f l).

(** ** [mp.Queue] and the distributed-group primitive *)

(** [mp.Queue()]: a new, empty queue object at the next free address. *)
Definition new_queue : M ref :=
  let* qs := get_queues in
  let q := length qs in
  put_queues (qs ++ [[]]) >>
  emit (EvNewQueue q) >>
  ret q.

(** A reference to an object that is not in the store does not occur in
    Python; the model reports it as an error of its own. *)
Definition dangling : exc := Exc (OtherError "ReferenceError") "no such object" None.

Definition read_queue (q : ref) : M (list value) :=
  let* qs := get_queues in
  match qs !! q with
  | Some ms => ret ms
  | None => raise dangling
  end.

(** [q.empty()] *)
Definition queue_empty (q : ref) : M bool :=
  let* ms := read_queue q in
  let answer := match ms with [] => true | _ :: _ => false end in
  emit (EvEmpty q answer) >>
  ret answer.

(** [q.get_nowait()]: pops the oldest message, raises [queue.Empty] when
    there is none. *)
Definition queue_get_nowait (q : ref) : M value :=
  let* ms := read_queue q in
  match ms with
  | [] => raise (Exc (OtherError "Empty") "" None)
  | m :: rest =>
      let* qs := get_queues in
      put_queues (<[q := rest]> qs) >>
      emit (EvGetNowait q m) >>
      ret m
  end.

(** [q.get()]: pops the oldest message; with no message the caller stays
    blocked until a producer puts one. *)
Definition queue_get (q : ref) : M value :=
  let* ms := read_queue q in
  match ms with
  | [] => block
  | m :: rest =>
      let* qs := get_queues in
      put_queues (<[q := rest]> qs) >>
      emit (EvGet q m) >>
      ret m
  end.

(** [q.put(m)], the producer side (the sampler in a worker process). *)
Definition queue_put (q : ref) (m : value) (s : Sys) : Sys :=
  match queues s !! q with
  | Some ms => mkSys (self s) (<[q := ms ++ [m]]> (queues s)) (iterators_made s) (trace s)
  | None => s
  end.

(** [torch.distributed.barrier()] *)
Definition barrier : M unit := emit EvBarrier.

(** ** The methods of [DistLoader] *)

(** [__repr__]: [f'{self.__class__.__name__}(pid={self.pid})']; an [int] is
    formatted in decimal, with a leading minus sign when negative. *)
Definition format_int (z : Z) : string := NilZero.string_of_int (Z.to_int z).

Definition repr (l : DistLoader) : string :=
  class_name l +:+ "(pid=" +:+ format_int (pid l) +:+ ")".

(** [channel_get]; an [mp.Queue] object is always true. *)
Definition channel_get (out : value) : M value :=
  let* l := get_self in
  match channel l with
  | Some q => queue_get q
  | None => ret out
  end.

(** [self.channel.empty()] and [self.channel.get_nowait()] of the loop in
    [reset_channel]; [self.channel] is read again at every use. *)
Definition channel_not_empty : M bool :=
  let* l := get_self in
  match channel l with
  | Some q => let* b := queue_empty q in ret (negb b)
  | None => raise (none_has_no "empty")
  end.

Definition channel_get_nowait : M unit :=
  let* l := get_self in
  match channel l with
  | Some q => queue_get_nowait q >> ret tt
  | None => raise (none_has_no "get_nowait")
  end.

(** [self.dist_sampler.channel = self.channel] *)
Definition propagate_channel : M unit :=
  let* l := get_self in
  match dist_sampler l with
  | None => raise (none_has_no "channel")
  | Some smp =>
      put_self (set_dist_sampler
                  (Some (mkSampler (channel l) (init_raises smp) (instance_ready smp))) l) >>
      match channel l with
      | Some q => emit (EvSetSamplerChannel q)
      | None => ret tt
      end
  end.

(** [reset_channel(channel=None)].  In [channel or mp.Queue()] a supplied
    queue object is true whatever it holds ([mp.Queue] defines neither
    [__bool__] nor [__len__]), so the new queue is made only for [None]. *)
Definition reset_channel (fuel : nat) (supplied : option ref) : M unit :=
  while fuel channel_not_empty channel_get_nowait >>
  barrier >>
  let* c := match supplied with
            | Some c => ret c
            | None => new_queue
            end in
  modify_self (set_channel (Some c)) >>
  emit (EvSetChannel c) >>
  propagate_channel.

(** [self.dist_sampler.init_sampler_instance()] *)
Definition init_sampler_instance : M unit :=
  let* l := get_self in
  match dist_sampler l with
  | None => raise (none_has_no "init_sampler_instance")
  | Some smp =>
      match init_raises smp with
      | Some e => raise e
      | None =>
          put_self (set_dist_sampler
                      (Some (mkSampler (sampler_channel smp) None true)) l) >>
          emit EvInitSampler
      end
  end.

(** [worker_init_fn(worker_id)] *)
Definition worker_init_fn (worker_id : Z) : M unit :=
  try_except_RuntimeError
    (let* l := get_self in
     let num_sampler_proc := if 0 <? num_workers l then num_workers l else 1 in
     put_self (set_current_ctx_worker
                 {| world_size := world_size (current_ctx l) * num_sampler_proc;
                    rank := rank (current_ctx l) * num_sampler_proc + worker_id;
                    global_world_size := world_size (current_ctx l) * num_sampler_proc;
                    global_rank := rank (current_ctx l) * num_sampler_proc + worker_id;
                    group_name := "mp_sampling_worker" |} l) >>
     init_sampler_instance)
    (fun caught =>
       let* l := get_self in
       raise (Exc RuntimeError
                ("`" +:+ repr l +:+ ".init_fn()` could not initialize the "
                     +:+ "worker loop of the neighbor sampler")
                (Some caught))).

(** [self._get_iterator()], provided by the data-loader class: a new iterator
    object over the loader's batches. *)
Definition _get_iterator : M DataLoaderIterator :=
  fun s =>
    let it := mkIterator (iterators_made s) (num_batches (self s)) in
    (Return it,
     mkSys (self s) (queues s) (S (iterators_made s))
           (trace s ++ [EvGetIterator (iter_id it)])).

(** [__enter__] *)
Definition __enter__ : M DataLoaderIterator :=
  let* l := get_self in
  put_self (set_prefetch_old (prefetch_factor l) l) >>
  modify_self (set_prefetch_factor 1) >>
  let* it := _get_iterator in
  modify_self (set_iterator (Attr (Some it))) >>
  ret it.

(** The truth value of [self._iterator]. *)
Definition iterator_attr_truthy : M bool :=
  let* l := get_self in
  match _iterator l with
  | Unset => raise (no_attribute (class_name l) "_iterator")
  | Attr None => ret false
  | Attr (Some it) => ret (iterator_truthy it)
  end.

(** [__exit__]; its arguments are ignored. *)
Definition __exit__ (fuel : nat) : M unit :=
  let* l := get_self in
  match channel l with
  | Some _ => reset_channel fuel None
  | None => ret tt
  end >>
  let* t := iterator_attr_truthy in
  if t then
    modify_self (set_iterator Unset) >>
    emit EvDelIterator >>
    barrier >>
    modify_self (set_iterator (Attr None)) >>
    let* l := get_self in
    match _prefetch_old l with
    | Attr old => modify_self (set_prefetch_factor old)
    | Unset => raise (no_attribute (class_name l) "_prefetch_old")
    end
  else ret tt.

(** ** Concrete systems used in the examples *)

Definition ctx0 (W R : Z) : DistContext :=
  {| world_size := W; rank := R; global_world_size := W; global_rank := R;
     group_name := "group" |}.

Definition loader0 (W R N : Z) (smp : option DistNeighborSampler)
    (ch : option ref) (batches : Z) : DistLoader :=
  mkLoader "DistLoader" smp (ctx0 W R) ch 7 N Unset 8 Unset Unset batches.

Definition sys0 (l : DistLoader) (qs : list (list value)) : Sys :=
  mkSys l qs 0 [].

(** ** Worker identity *)

(** The context a call of [worker_init_fn] leaves in [current_ctx_worker]. *)
Definition derived_ctx (s : Sys) (worker_id : Z) : attr DistContext :=
  current_ctx_worker (self (snd (worker_init_fn worker_id s))).

Definition worker_global_rank (s : Sys) (worker_id : Z) : option Z :=
  match derived_ctx s worker_id with
  | Attr c => Some (global_rank c)
  | Unset => None
  end.

(** The [global_rank]s of a whole job, group by group and worker by worker,
    each obtained by running [worker_init_fn] in a loader of that group. *)
Definition job_global_ranks (W N : Z) : list (option Z) :=
  flat_map
    (fun R =>
       map (fun w =>
              worker_global_rank
                (mkSys (mkLoader "DistLoader" None
                          (mkDistContext W R W R "group") None 7 N
                          Unset 2 Unset Unset 0) [] 0 []) w)
           (seqZ 0 (Z.max N 1)))
    (seqZ 0 W).

(** The loaders of one job: [W] groups, every group with [N] workers. *)
Definition in_job (W N : Z) (s : Sys) : Prop :=
  world_size (current_ctx (self s)) = W /\
  num_workers (self s) = N /\
  0 <= rank (current_ctx (self s)) < W.

Definition ranks_cover_exactly (W N : Z) : Prop :=
  let P := Z.max N 1 in
  (forall s w, in_job W N s -> 0 <= w < P ->
     exists g, worker_global_rank s w = Some g /\ 0 <= g < W * P) /\
  (forall g, 0 <= g < W * P ->
     exists R w, 0 <= R < W /\ 0 <= w < P /\
       forall s, in_job W N s -> rank (current_ctx (self s)) = R ->
         worker_global_rank s w = Some g) /\
  (forall s1 s2 w1 w2,
     in_job W N s1 -> in_job W N s2 -> 0 <= w1 < P -> 0 <= w2 < P ->
     worker_global_rank s1 w1 = worker_global_rank s2 w2 ->
     rank (current_ctx (self s1)) = rank (current_ctx (self s2)) /\ w1 = w2).

(** ** Channel reset *)

(** The effects of the drain loop on a queue that holds [msgs]: one emptiness
    test and one pop per message, then the test that reports empty. *)
Fixpoint drain_events (q : ref) (msgs : list value) : list event :=
  match msgs with
  | [] => [EvEmpty q true]
  | m :: rest => EvEmpty q false :: EvGetNowait q m :: drain_events q rest
  end.

Definition drained (q : ref) (msgs : list value) (s : Sys) : Sys :=
  mkSys (self s) (<[q := []]> (queues s)) (iterators_made s)
        (trace s ++ drain_events q msgs).

Definition is_nil {A} (l : list A) : bool :=
  match l with [] => true | _ :: _ => false end.

(** The channel that [channel or mp.Queue()] evaluates to: the one supplied,
    or the new object, which gets the next free address. *)
Definition installed (supplied : option ref) (s : Sys) : ref :=
  match supplied with
  | Some c => c
  | None => length (queues s)
  end.

Definition install_events (supplied : option ref) (new : ref) : list event :=
  match supplied with
  | Some _ => [EvSetChannel new]
  | None => [EvNewQueue new; EvSetChannel new]
  end.

(** The system after the drain, the barrier and the assignment to
    [self.channel], just before the sampler is updated. *)
Definition swapped (supplied : option ref) (q : ref) (msgs : list value) (s : Sys) : Sys :=
  mkSys (set_channel (Some (installed supplied s)) (self s))
        (match supplied with
         | Some _ => <[q := []]> (queues s)
         | None => <[q := []]> (queues s) ++ [[]]
         end)
        (iterators_made s)
        (trace s ++ drain_events q msgs ++ [EvBarrier]
                 ++ install_events supplied (installed supplied s)).

(** The effects of a complete reset, in program order: the drain of the
    current channel [q], the barrier, the installation of the new channel
    (allocated first when none was supplied), the update of the sampler. *)
Definition protocol_trace (q : ref) (msgs : list value)
    (supplied : option ref) (new : ref) : list event :=
  drain_events q msgs ++ [EvBarrier] ++ install_events supplied new
    ++ [EvSetSamplerChannel new].

Definition follows_protocol (supplied : option ref) (s s' : Sys) : Prop :=
  exists q msgs new,
    channel (self s) = Some q /\
    queues s !! q = Some msgs /\
    new = installed supplied s /\
    (supplied = None -> queues s !! new = None /\ queues s' !! new = Some []) /\
    trace s' = trace s ++ protocol_trace q msgs supplied new /\
    channel (self s') = Some new /\
    exists smp',
      dist_sampler (self s') = Some smp' /\
      sampler_channel smp' = channel (self s').

(** A loader with a sampler and a channel that holds two messages. *)
Definition sampler0 : DistNeighborSampler := mkSampler (Some 0%nat) None false.

Definition busy_sys : Sys :=
  sys0 (loader0 2 1 4 (Some sampler0) (Some 0%nat) 5) [[VInt 1; VStr "batch"]].

(** A loader without channel, inside the warm-up scope. *)
Definition plain_sys : Sys :=
  mkSys (mkLoader "DistLoader" None (ctx0 1 0) None 7 0 Unset 1 (Attr 8)
           (Attr (Some (mkIterator 0 5))) 5)
        [] 1 [EvGetIterator 0].

(** ** Worker initialisation failure *)

(** A sampler whose [init_sampler_instance()] raises a [RuntimeError]. *)
Definition failing_sampler : DistNeighborSampler :=
  mkSampler None (Some (Exc RuntimeError "CUDA error: out of memory" None)) false.

Definition failing_sys : Sys :=
  sys0 (loader0 2 1 4 (Some failing_sampler) None 5) [].

(** The message of the error [worker_init_fn(k)] raises, if it raises. *)
Definition init_error_message (s : Sys) (k : Z) : option string :=
  match fst (worker_init_fn k s) with
  | Raise e => Some (exc_msg e)
  | _ => None
  end.

(** A message identifies the worker when the worker id can be told from it:
    two calls that fail with the same message are calls for the same id. *)
Definition message_identifies_worker : Prop :=
  forall (s : Sys) (k1 k2 : Z) (m : string),
    init_error_message s k1 = Some m ->
    init_error_message s k2 = Some m ->
    k1 = k2.

(** The text the handler of [worker_init_fn] builds. *)
Definition init_failure_message (l : DistLoader) : string :=
  "`" +:+ repr l +:+
  ".init_fn()` could not initialize the worker loop of the neighbor sampler".

(** ** Scoped warm-up *)

(** The reset that [__exit__] performs on a loader with a channel can run
    when the loader also has a sampler (and the loop enough fuel). *)
Definition reset_can_run (fuel : nat) (s : Sys) : Prop :=
  channel (self s) = None \/
  exists q msgs smp,
    channel (self s) = Some q /\
    queues s !! q = Some msgs /\
    dist_sampler (self s) = Some smp /\
    (length msgs < fuel)%nat.

(** A loader with prefetch depth 8 and nothing to iterate over. *)
Definition empty_sys : Sys := sys0 (loader0 1 0 0 None None 0) [].

(** A loader with prefetch depth 8, five batches and an empty channel, built
    without sampler ([dist_sampler] defaults to [None]). *)
Definition lonely_sys : Sys := sys0 (loader0 1 0 0 None (Some 0%nat) 5) [[]].

(** ** Construction *)

Definition set_current_ctx (c : DistContext) (l : DistLoader) : DistLoader :=
  mkLoader (class_name l) (dist_sampler l) c (channel l) (pid l)
    (num_workers l) (current_ctx_worker l) (prefetch_factor l)
    (_prefetch_old l) (_iterator l) (num_batches l).

Definition set_pid (p : Z) (l : DistLoader) : DistLoader :=
  mkLoader (class_name l) (dist_sampler l) (current_ctx l) (channel l) p
    (num_workers l) (current_ctx_worker l) (prefetch_factor l)
    (_prefetch_old l) (_iterator l) (num_batches l).

Definition set_num_workers (n : Z) (l : DistLoader) : DistLoader :=
  mkLoader (class_name l) (dist_sampler l) (current_ctx l) (channel l) (pid l)
    n (current_ctx_worker l) (prefetch_factor l)
    (_prefetch_old l) (_iterator l) (num_batches l).

(** [__init__(current_ctx, channel=None, dist_sampler=None, **kwargs)], run
    on the object under construction, in the process whose identifier
    [mp.current_process().pid] is [current_pid].  [kwargs] is the dictionary
    of the remaining keyword arguments, here those with an integer value, as
    [num_workers] has.  The attributes that the data-loader class of a
    concrete loader brings are not assigned here. *)
Definition __init__ (current_pid : Z) (ctx : DistContext) (ch : option ref)
    (smp : option DistNeighborSampler) (kwargs : gmap string Z) : M unit :=
  modify_self (set_dist_sampler smp) >>
  modify_self (set_current_ctx ctx) >>
  modify_self (set_channel ch) >>
  modify_self (set_pid current_pid) >>
  modify_self (set_num_workers (default 0 (kwargs !! "num_workers"))).

(** ** Notions used in the further properties *)

(** What identifies a loader and fixes the identities of its workers. *)
Definition identity (l : DistLoader) : string * Z * DistContext * Z * Z :=
  (class_name l, pid l, current_ctx l, num_workers l, num_batches l).

(** The state of the warm-up scope. *)
Definition warm_up_state (l : DistLoader)
    : Z * attr Z * attr (option DataLoaderIterator) :=
  (prefetch_factor l, _prefetch_old l, _iterator l).

(** A computation keeps the property [J] of the loader object, whatever its
    outcome, and a value it returns satisfies [Q]. *)
Definition stable (J : DistLoader -> Prop) {A} (m : M A) (Q : A -> Prop) : Prop :=
  forall s, J (self s) ->
    J (self (snd (m s))) /\ forall a, fst (m s) = Return a -> Q a.

(** The number of barriers in a trace. *)
Fixpoint barriers (t : list event) : nat :=
  match t with
  | [] => 0
  | EvBarrier :: t' => S (barriers t')
  | _ :: t' => barriers t'
  end.

(** [n] successive calls of [channel_get(out)], collecting the results. *)
Fixpoint channel_get_n (n : nat) (out : value) : M (list value) :=
  match n with
  | O => ret []
  | S n' =>
      let* m := channel_get out in
      let* ms := channel_get_n n' out in
      ret (m :: ms)
  end.

(** The truth value of the [_iterator] attribute, false when it is absent. *)
Definition iterator_true (l : DistLoader) : bool :=
  match _iterator l with
  | Attr (Some it) => iterator_truthy it
  | _ => false
  end.

(** An object before [__init__] has run: only what the data-loader class
    provides is meaningful. *)
Definition blank (cls : string) (prefetch batches : Z) : DistLoader :=
  mkLoader cls None (mkDistContext 0 0 0 0 "") None 0 0 Unset prefetch Unset
    (Attr None) batches.

(** A loader whose channel holds one message, with a second queue that holds
    two. *)
Definition two_queue_sys : Sys :=
  sys0 (loader0 2 1 4 (Some sampler0) (Some 0%nat) 5)
       [[VInt 1]; [VStr "a"; VStr "b"]].

(** The part of [__exit__] after the guarded reset. *)
Definition exit_tail : M unit :=
  let* t := iterator_attr_truthy in
  if t then
    modify_self (set_iterator Unset) >>
    emit EvDelIterator >>
    barrier >>
    modify_self (set_iterator (Attr None)) >>
    let* l := get_self in
    match _prefetch_old l with
    | Attr old => modify_self (set_prefetch_factor old)
    | Unset => raise (no_attribute (class_name l) "_prefetch_old")
    end
  else ret tt.

(** A loader that reads from the second of two queues. *)
Definition two_queue_sys_b : Sys :=
  sys0 (loader0 2 1 4 (Some sampler0) (Some 1%nat) 5)
       [[VInt 1]; [VStr "a"; VStr "b"; VStr "c"]].

(** The last clause of C9 as it is stated: in every derived context the
    local fields are other than the parent's [world_size] and [rank]. *)
Definition local_fields_not_retained : Prop :=
  forall (s : Sys) (w : Z) (c : DistContext),
    derived_ctx s w = Attr c ->
    world_size c <> world_size (current_ctx (self s)) /\
    rank c <> rank (current_ctx (self s)).

(** A loader of group 1 of 2 with the default [num_workers = 0], and a
    loader of group 0 of 2 with four workers. *)
Definition single_sys : Sys := sys0 (loader0 2 1 0 None None 5) [].

Definition first_group_sys : Sys := sys0 (loader0 2 0 4 None None 5) [].

(** * Properties *)

(** ** Worker identity *)

(** The assignment to [current_ctx_worker] happens before the sampler is
    touched, so it is there whatever the sampler does. *)
Lemma derived_ctx_eq (s : Sys) (w : Z) :
  let l := self s in
  let P := if 0 <? num_workers l then num_workers l else 1 in
  derived_ctx s w =
  Attr {| world_size := world_size (current_ctx l) * P;
          rank := rank (current_ctx l) * P + w;
          global_world_size := world_size (current_ctx l) * P;
          global_rank := rank (current_ctx l) * P + w;
          group_name := "mp_sampling_worker" |}.
Proof.
  unfold derived_ctx, worker_init_fn, try_except_RuntimeError, init_sampler_instance.
  cbn.
  destruct (dist_sampler (self s)) as [smp|]; cbn; [|reflexivity].
  destruct (init_raises smp) as [e|]; cbn; [|reflexivity].
  destruct (is_runtime_error e); reflexivity.
Qed.

Lemma pool_size_max (N : Z) : (if 0 <? N then N else 1) = Z.max N 1.
Proof. destruct (Z.ltb_spec 0 N); lia. Qed.

Lemma worker_global_rank_eq (s : Sys) (w : Z) :
  worker_global_rank s w =
  Some (rank (current_ctx (self s)) * Z.max (num_workers (self s)) 1 + w).
Proof.
  unfold worker_global_rank. rewrite derived_ctx_eq. cbn.
  now rewrite pool_size_max.
Qed.

Example job_global_ranks_2_3 :
  job_global_ranks 2 3 = map Some [0; 1; 2; 3; 4; 5].
Proof. reflexivity. Qed.

Example job_global_ranks_3_0 :
  job_global_ranks 3 0 = map Some [0; 1; 2].
Proof. reflexivity. Qed.

(** Read group by group, the [global_rank]s of a job are [0, 1, ...,
    W*P - 1], each once and in this order. *)
Lemma job_global_ranks_enumerate (W N : Z) :
  0 <= W ->
  job_global_ranks W N = map Some (seqZ 0 (W * Z.max N 1)).
Proof.
  intros HW. unfold job_global_ranks.
  set (P := Z.max N 1). assert (HP : 0 <= P) by lia.
  erewrite flat_map_ext; cycle 1.
  { intros R. apply map_ext. intros w.
    rewrite worker_global_rank_eq. cbn. fold P. reflexivity. }
  rewrite <- (Z2Nat.id W HW). generalize (Z.to_nat W) as n. clear HW.
  induction n as [|n IH].
  - reflexivity.
  - rewrite seqZ_S, flat_map_app, IH. cbn [flat_map]. rewrite app_nil_r.
    replace (Z.of_nat (S n) * P) with (Z.of_nat n * P + P) by lia.
    rewrite seqZ_app, map_app by lia. f_equal.
    replace (seqZ (0 + Z.of_nat n * P) P)
      with (Z.add (Z.of_nat n * P) <$> seqZ 0 P)
      by (rewrite fmap_add_seqZ; f_equal; lia).
    change (@fmap list _ _ _ ?f ?l) with (map f l). rewrite map_map.
    apply map_ext. intros w. f_equal; lia.
Qed.

Lemma mixed_radix_inj (P R1 w1 R2 w2 : Z) :
  0 <= w1 < P -> 0 <= w2 < P ->
  R1 * P + w1 = R2 * P + w2 -> R1 = R2 /\ w1 = w2.
Proof.
  intros H1 H2 E.
  assert (R1 = R2) by (destruct (Z.lt_trichotomy R1 R2) as [L|[L|L]]; nia).
  subst. lia.
Qed.

(** C1. For [W >= 1] groups and [num_workers = N >= 0], with
    [P = max(N, 1)]: every worker [w] in [0, P) of every rank in [0, W) gets
    a [global_rank] in [0, W*P); every number in [0, W*P) is the
    [global_rank] of some such worker; and two workers with the same
    [global_rank] are the same worker of the same rank. *)
Theorem global_rank_unique (W N : Z) :
  1 <= W -> 0 <= N -> ranks_cover_exactly W N.
Proof.
  intros HW HN. unfold ranks_cover_exactly. cbn zeta.
  set (P := Z.max N 1). assert (HP : 1 <= P) by lia.
  split; [|split].
  - intros s w (Hw & Hn & Hr) Hwk.
    eexists. split; [apply worker_global_rank_eq|].
    rewrite Hn. fold P. nia.
  - intros g Hg. exists (g / P), (g mod P).
    assert (Hm : 0 <= g mod P < P) by (apply Z.mod_pos_bound; lia).
    assert (Hd : g = P * (g / P) + g mod P) by (apply Z.div_mod; lia).
    repeat split; try lia.
    + apply Z.div_pos; lia.
    + apply Z.div_lt_upper_bound; lia.
    + intros s (Hw & Hn & Hr) HR.
      rewrite worker_global_rank_eq, Hn, HR. fold P. f_equal. lia.
  - intros s1 s2 w1 w2 (_ & Hn1 & _) (_ & Hn2 & _) Hw1 Hw2 E.
    rewrite !worker_global_rank_eq, Hn1, Hn2 in E. fold P in E.
    injection E as E. now apply (mixed_radix_inj P).
Qed.

Lemma global_rank_unique_witness : 1 <= 2 /\ 0 <= 3 /\ ranks_cover_exactly 2 3.
Proof.
  split; [lia|]. split; [lia|]. apply (global_rank_unique 2 3); lia.
Defined.

(** C2. For a parent context with [world_size = W] and [rank = R], a loader
    with [num_workers = N] and any [worker_id = w], [worker_init_fn] stores a
    child context with [global_world_size = W * P], [global_rank = R * P + w]
    and [group_name = "mp_sampling_worker"], where [P = N if N > 0 else 1]. *)
Theorem worker_context_formula (s : Sys) (w : Z) :
  let W := world_size (current_ctx (self s)) in
  let R := rank (current_ctx (self s)) in
  let N := num_workers (self s) in
  let P := if 0 <? N then N else 1 in
  exists c,
    current_ctx_worker (self (snd (worker_init_fn w s))) = Attr c /\
    global_world_size c = W * P /\
    global_rank c = R * P + w /\
    group_name c = "mp_sampling_worker".
Proof.
  intros W R N P.
  pose proof (derived_ctx_eq s w) as E. cbn zeta in E.
  unfold derived_ctx in E. rewrite E.
  eexists. split; [reflexivity|]. cbn. auto.
Qed.

(** C9, as stated, fails in its last clause: with the default
    [num_workers = 0] the pool size is 1 and worker 0 gets exactly the
    parent's [world_size] and [rank] in its local fields; and worker 0 of
    group 0 keeps the parent's rank 0 whatever the pool size is. *)
Lemma worker_context_can_keep_parent_fields :
  derived_ctx single_sys 0 =
    Attr {| world_size := 2; rank := 1; global_world_size := 2; global_rank := 1;
            group_name := "mp_sampling_worker" |} /\
  world_size (current_ctx (self single_sys)) = 2 /\
  rank (current_ctx (self single_sys)) = 1 /\
  derived_ctx first_group_sys 0 =
    Attr {| world_size := 8; rank := 0; global_world_size := 8; global_rank := 0;
            group_name := "mp_sampling_worker" |} /\
  rank (current_ctx (self first_group_sys)) = 0 /\
  ~ local_fields_not_retained.
Proof.
  split; [reflexivity|]. split; [reflexivity|]. split; [reflexivity|].
  split; [reflexivity|]. split; [reflexivity|].
  intros H.
  destruct (H single_sys 0 _ eq_refl) as [Hw _]. now apply Hw.
Qed.

(** C9, amended.  In the context derived by [worker_init_fn] the local
    fields carry the global values: [world_size = global_world_size = W * P]
    and [rank = global_rank = R * P + w].  With more than one worker per
    group ([P > 1]) the child's [world_size] is not the parent's [W] when
    [W > 0], and its [rank] is not the parent's [R] when [R > 0] and
    [w >= 0]. *)
Theorem worker_context_local_is_global (s : Sys) (w : Z) :
  let W := world_size (current_ctx (self s)) in
  let R := rank (current_ctx (self s)) in
  let N := num_workers (self s) in
  let P := if 0 <? N then N else 1 in
  exists c,
    current_ctx_worker (self (snd (worker_init_fn w s))) = Attr c /\
    world_size c = global_world_size c /\
    global_world_size c = W * P /\
    rank c = global_rank c /\
    global_rank c = R * P + w /\
    (1 < P -> 0 < W -> world_size c <> W) /\
    (1 < P -> 0 < R -> 0 <= w -> rank c <> R).
Proof.
  intros W R N P.
  pose proof (derived_ctx_eq s w) as E. cbn zeta in E.
  unfold derived_ctx in E. rewrite E.
  eexists. split; [reflexivity|]. cbn. fold W R N P.
  repeat split; nia.
Qed.

Lemma worker_context_local_is_global_witness :
  exists c,
    current_ctx_worker
      (self (snd (worker_init_fn 3
         (sys0 (loader0 2 1 4 (Some (mkSampler None None false)) None 5) [])))) = Attr c /\
    world_size c = 8 /\ global_world_size c = 8 /\ rank c = 7 /\ global_rank c = 7 /\
    world_size c <> 2 /\ rank c <> 1.
Proof.
  destruct (worker_context_local_is_global
              (sys0 (loader0 2 1 4 (Some (mkSampler None None false)) None 5) []) 3)
    as (c & Hc & H1 & H2 & H3 & H4 & H5 & H6).
  exists c. cbn in H2, H4, H5, H6.
  split; [exact Hc|].
  repeat split; lia.
Defined.

(** ** Channel reset *)

Lemma bind_return {A B} (m : M A) (k : A -> M B) (s s' : Sys) (a : A) :
  m s = (Return a, s') -> bind m k s = k a s'.
Proof. unfold bind. now intros ->. Qed.

Lemma bind_raise {A B} (m : M A) (k : A -> M B) (s s' : Sys) (e : exc) :
  m s = (Raise e, s') -> bind m k s = (Raise e, s').
Proof. unfold bind. now intros ->. Qed.

(** One step of a run: the first action of a sequence returns as the lemma
    [lem] says. *)
Ltac step_with lem := erewrite bind_return by (eapply lem; eassumption).

Lemma channel_not_empty_run (s : Sys) (q : ref) (msgs : list value) :
  channel (self s) = Some q ->
  queues s !! q = Some msgs ->
  channel_not_empty s =
  (Return (negb (is_nil msgs)),
   mkSys (self s) (queues s) (iterators_made s) (trace s ++ [EvEmpty q (is_nil msgs)])).
Proof.
  intros Hc Hq.
  unfold channel_not_empty, get_self, queue_empty, read_queue, get_queues, bind.
  cbn. rewrite Hc. cbn. rewrite Hq. cbn. now destruct msgs.
Qed.

Lemma channel_not_empty_no_channel (s : Sys) :
  channel (self s) = None ->
  channel_not_empty s = (Raise (none_has_no "empty"), s).
Proof.
  intros Hc. unfold channel_not_empty, get_self, bind. cbn. now rewrite Hc.
Qed.

Lemma channel_not_empty_dangling (s : Sys) (q : ref) :
  channel (self s) = Some q ->
  queues s !! q = None ->
  channel_not_empty s = (Raise dangling, s).
Proof.
  intros Hc Hq.
  unfold channel_not_empty, get_self, queue_empty, read_queue, get_queues, bind.
  cbn. rewrite Hc. cbn. now rewrite Hq.
Qed.

Lemma channel_get_nowait_run (s : Sys) (q : ref) (m : value) (rest : list value) :
  channel (self s) = Some q ->
  queues s !! q = Some (m :: rest) ->
  channel_get_nowait s =
  (Return tt,
   mkSys (self s) (<[q := rest]> (queues s)) (iterators_made s)
         (trace s ++ [EvGetNowait q m])).
Proof.
  intros Hc Hq.
  unfold channel_get_nowait, get_self, queue_get_nowait, read_queue, get_queues, bind.
  cbn. rewrite Hc. cbn. rewrite Hq. reflexivity.
Qed.

Lemma drain_run (fuel : nat) :
  forall (s : Sys) (q : ref) (msgs : list value),
    channel (self s) = Some q ->
    queues s !! q = Some msgs ->
    (length msgs < fuel)%nat ->
    while fuel channel_not_empty channel_get_nowait s = (Return tt, drained q msgs s).
Proof.
  induction fuel as [|fuel IH]; intros s q msgs Hc Hq Hf; [lia|].
  cbn [while].
  step_with channel_not_empty_run.
  destruct msgs as [|m rest]; cbn [is_nil negb].
  - unfold ret, drained. cbn. now rewrite list_insert_id.
  - step_with channel_get_nowait_run.
    assert (Hlt : (q < length (queues s))%nat) by (eapply lookup_lt_Some; eauto).
    rewrite (IH _ q rest); cbn.
    + unfold drained. cbn. rewrite list_insert_insert_eq, <- !app_assoc. reflexivity.
    + exact Hc.
    + now apply list_lookup_insert_eq.
    + cbn in Hf. lia.
Qed.

(** Without enough fuel the model gives up; the loop itself needs one test
    per message and one more. *)
Lemma drain_out_of_fuel (fuel : nat) :
  forall (s : Sys) (q : ref) (msgs : list value),
    channel (self s) = Some q ->
    queues s !! q = Some msgs ->
    (fuel <= length msgs)%nat ->
    fst (while fuel channel_not_empty channel_get_nowait s) = OutOfFuel.
Proof.
  induction fuel as [|fuel IH]; intros s q msgs Hc Hq Hf; [reflexivity|].
  cbn [while].
  step_with channel_not_empty_run.
  destruct msgs as [|m rest]; cbn [is_nil negb]; [cbn in Hf; lia|].
  step_with channel_get_nowait_run.
  assert (Hlt : (q < length (queues s))%nat) by (eapply lookup_lt_Some; eauto).
  apply (IH _ q rest); cbn.
  - exact Hc.
  - now apply list_lookup_insert_eq.
  - cbn in Hf. lia.
Qed.

Lemma reset_channel_run (fuel : nat) (supplied : option ref) (s : Sys)
    (q : ref) (msgs : list value) :
  channel (self s) = Some q ->
  queues s !! q = Some msgs ->
  (length msgs < fuel)%nat ->
  reset_channel fuel supplied s = propagate_channel (swapped supplied q msgs s).
Proof.
  intros Hc Hq Hf. unfold reset_channel.
  step_with drain_run.
  unfold swapped, installed, install_events.
  destruct supplied as [c|]; cbn; rewrite <- ?app_assoc; cbn.
  - reflexivity.
  - rewrite length_insert. reflexivity.
Qed.

Lemma propagate_channel_run (s : Sys) (smp : DistNeighborSampler) (c : ref) :
  dist_sampler (self s) = Some smp ->
  channel (self s) = Some c ->
  propagate_channel s =
  (Return tt,
   mkSys (set_dist_sampler
            (Some (mkSampler (Some c) (init_raises smp) (instance_ready smp))) (self s))
         (queues s) (iterators_made s) (trace s ++ [EvSetSamplerChannel c])).
Proof.
  intros Hs Hc. unfold propagate_channel, bind, get_self. cbn.
  rewrite Hs. cbn. rewrite Hc. reflexivity.
Qed.

Lemma propagate_channel_no_sampler (s : Sys) :
  dist_sampler (self s) = None ->
  propagate_channel s = (Raise (none_has_no "channel"), s).
Proof.
  intros Hs. unfold propagate_channel, bind, get_self. cbn. now rewrite Hs.
Qed.

Lemma bind_fst_not_return {A B} (m : M A) (k : A -> M B) (s : Sys) :
  (forall a, fst (m s) <> Return a) -> forall b, fst (bind m k s) <> Return b.
Proof.
  intros H b. unfold bind. destruct (m s) as [[a| | |] s']; cbn in *; try discriminate.
  now destruct (H a).
Qed.

(** [reset_channel] returns only from a loader with a channel and a sampler
    (and, in the model, a loop that was given enough fuel). *)
Lemma reset_channel_returns_inv (fuel : nat) (supplied : option ref) (s s' : Sys) :
  reset_channel fuel supplied s = (Return tt, s') ->
  exists q msgs smp,
    channel (self s) = Some q /\
    queues s !! q = Some msgs /\
    dist_sampler (self s) = Some smp /\
    (length msgs < fuel)%nat.
Proof.
  intros Hrun.
  destruct (channel (self s)) as [q|] eqn:Hc.
  - destruct (queues s !! q) as [msgs|] eqn:Hq.
    + destruct (le_lt_dec fuel (length msgs)) as [Hle|Hlt].
      * exfalso.
        pose proof (drain_out_of_fuel fuel s q msgs Hc Hq Hle) as Hout.
        apply (bind_fst_not_return (while fuel channel_not_empty channel_get_nowait)
                 (fun _ => barrier >>
                    (let* c := match supplied with
                               | Some c => ret c
                               | None => new_queue
                               end in
                     modify_self (set_channel (Some c)) >> emit (EvSetChannel c) >>
                     propagate_channel)) s) with (b := tt).
        -- intros a. rewrite Hout. discriminate.
        -- unfold reset_channel in Hrun. now rewrite Hrun.
      * destruct (dist_sampler (self s)) as [smp|] eqn:Hs.
        -- now exists q, msgs, smp.
        -- exfalso. rewrite (reset_channel_run fuel supplied s q msgs Hc Hq Hlt) in Hrun.
           rewrite propagate_channel_no_sampler in Hrun by exact Hs. discriminate.
    + exfalso. destruct fuel; [discriminate|].
      unfold reset_channel in Hrun. cbn [while] in Hrun.
      erewrite bind_raise in Hrun
        by (eapply bind_raise; eapply channel_not_empty_dangling; eassumption).
      discriminate.
  - exfalso. destruct fuel; [discriminate|].
    unfold reset_channel in Hrun. cbn [while] in Hrun.
    erewrite bind_raise in Hrun
      by (eapply bind_raise; eapply channel_not_empty_no_channel; eassumption).
    discriminate.
Qed.

Lemma reset_channel_complete (fuel : nat) (supplied : option ref) (s : Sys)
    (q : ref) (msgs : list value) (smp : DistNeighborSampler) :
  channel (self s) = Some q ->
  queues s !! q = Some msgs ->
  dist_sampler (self s) = Some smp ->
  (length msgs < fuel)%nat ->
  exists s',
    reset_channel fuel supplied s = (Return tt, s') /\
    follows_protocol supplied s s'.
Proof.
  intros Hc Hq Hs Hf.
  rewrite (reset_channel_run fuel supplied s q msgs Hc Hq Hf).
  erewrite propagate_channel_run by (cbn; eauto).
  eexists. split; [reflexivity|].
  exists q, msgs, (installed supplied s). cbn.
  split; [exact Hc|]. split; [exact Hq|]. split; [reflexivity|].
  split; [|split; [|split]].
  - intros ->. cbn. split.
    + now apply lookup_ge_None_2.
    + rewrite lookup_app_r by (rewrite length_insert; lia).
      rewrite length_insert, Nat.sub_diag. reflexivity.
  - unfold protocol_trace. now rewrite <- !app_assoc.
  - reflexivity.
  - eexists. split; reflexivity.
Qed.

(** Without sampler the first three steps are performed, in order, and the
    call raises at the fourth. *)
Lemma reset_channel_without_sampler (fuel : nat) (supplied : option ref) (s : Sys)
    (q : ref) (msgs : list value) :
  channel (self s) = Some q ->
  queues s !! q = Some msgs ->
  dist_sampler (self s) = None ->
  (length msgs < fuel)%nat ->
  reset_channel fuel supplied s =
  (Raise (none_has_no "channel"), swapped supplied q msgs s).
Proof.
  intros Hc Hq Hs Hf.
  rewrite (reset_channel_run fuel supplied s q msgs Hc Hq Hf).
  now apply propagate_channel_no_sampler.
Qed.

(** C3. A call of [reset_channel] on a loader with a channel and a sampler
    returns, and every call that returns has performed, in this order: the
    non-blocking pops of the current channel until it reported empty, the
    barrier, the installation of the supplied channel (or of a newly
    allocated empty one when none was supplied) as [self.channel], and the
    update of the sampler's channel; afterwards the sampler's channel and the
    loader's channel are the same object. *)
Theorem reset_channel_protocol (fuel : nat) (supplied : option ref) (s : Sys) :
  (forall q msgs smp,
     channel (self s) = Some q ->
     queues s !! q = Some msgs ->
     dist_sampler (self s) = Some smp ->
     (length msgs < fuel)%nat ->
     exists s', reset_channel fuel supplied s = (Return tt, s')) /\
  (forall s',
     reset_channel fuel supplied s = (Return tt, s') ->
     follows_protocol supplied s s').
Proof.
  split.
  - intros q msgs smp Hc Hq Hs Hf.
    destruct (reset_channel_complete fuel supplied s q msgs smp Hc Hq Hs Hf)
      as (s' & Hrun & _).
    now exists s'.
  - intros s' Hrun.
    destruct (reset_channel_returns_inv fuel supplied s s' Hrun)
      as (q & msgs & smp & Hc & Hq & Hs & Hf).
    destruct (reset_channel_complete fuel supplied s q msgs smp Hc Hq Hs Hf)
      as (s'' & Hrun' & Hp).
    rewrite Hrun in Hrun'. now injection Hrun' as <-.
Qed.

Lemma reset_channel_protocol_witness :
  exists s',
    reset_channel 3 None busy_sys = (Return tt, s') /\
    follows_protocol None busy_sys s' /\
    trace s' =
      [EvEmpty 0%nat false; EvGetNowait 0%nat (VInt 1);
       EvEmpty 0%nat false; EvGetNowait 0%nat (VStr "batch");
       EvEmpty 0%nat true; EvBarrier; EvNewQueue 1%nat; EvSetChannel 1%nat;
       EvSetSamplerChannel 1%nat].
Proof.
  destruct (reset_channel_protocol 3 None busy_sys) as [Hret Hprot].
  destruct (Hret 0%nat [VInt 1; VStr "batch"] sampler0
              eq_refl eq_refl eq_refl ltac:(cbn; lia)) as (s' & Hrun).
  exists s'. split; [exact Hrun|]. split; [exact (Hprot s' Hrun)|].
  vm_compute in Hrun. injection Hrun as <-. reflexivity.
Defined.

(** The store and the loader's channel after a reset do not depend on the
    sampler: the update of the sampler is the last step. *)
Lemma reset_channel_store (fuel : nat) (supplied : option ref) (s : Sys)
    (q : ref) (msgs : list value) :
  channel (self s) = Some q ->
  queues s !! q = Some msgs ->
  (length msgs < fuel)%nat ->
  let s' := snd (reset_channel fuel supplied s) in
  queues s' = queues (swapped supplied q msgs s) /\
  channel (self s') = Some (installed supplied s).
Proof.
  intros Hc Hq Hf. cbn zeta.
  rewrite (reset_channel_run fuel supplied s q msgs Hc Hq Hf).
  destruct (dist_sampler (self s)) as [smp|] eqn:Hs.
  - erewrite propagate_channel_run by (cbn; eauto). cbn. auto.
  - rewrite propagate_channel_no_sampler by exact Hs. cbn. auto.
Qed.

(** C6. In the sequential model no producer runs during the call.  After
    [reset_channel] on a loader whose channel is [q], the queue [q] holds no
    message and reports empty; the loader's channel is the supplied one when
    one was supplied, and otherwise a new object, different from [q], that
    did not exist before the call. *)
Theorem reset_channel_drain_then_empty (fuel : nat) (supplied : option ref)
    (s : Sys) (q : ref) (msgs : list value) :
  channel (self s) = Some q ->
  queues s !! q = Some msgs ->
  (length msgs < fuel)%nat ->
  let s' := snd (reset_channel fuel supplied s) in
  queues s' !! q = Some [] /\
  fst (queue_empty q s') = Return true /\
  match supplied with
  | Some c => channel (self s') = Some c
  | None =>
      exists new,
        channel (self s') = Some new /\ new <> q /\
        queues s !! new = None /\ queues s' !! new = Some []
  end.
Proof.
  intros Hc Hq Hf s'.
  destruct (reset_channel_store fuel supplied s q msgs Hc Hq Hf) as [Hst Hch].
  fold s' in Hst, Hch.
  assert (Hlt : (q < length (queues s))%nat) by (eapply lookup_lt_Some; eauto).
  assert (Hempty : queues s' !! q = Some []).
  { rewrite Hst. cbn. destruct supplied.
    - now apply list_lookup_insert_eq.
    - rewrite lookup_app_l by (rewrite length_insert; lia).
      now apply list_lookup_insert_eq. }
  split; [exact Hempty|]. split.
  - unfold queue_empty, read_queue, get_queues, bind. cbn.
    now rewrite Hempty.
  - destruct supplied as [c|]; cbn in Hch; [exact Hch|].
    exists (length (queues s)). split; [exact Hch|]. split; [lia|]. split.
    + now apply lookup_ge_None_2.
    + rewrite Hst. cbn.
      rewrite lookup_app_r by (rewrite length_insert; lia).
      rewrite length_insert, Nat.sub_diag. reflexivity.
Qed.

Lemma reset_channel_drain_then_empty_witness :
  let s' := snd (reset_channel 3 None busy_sys) in
  queues s' !! 0%nat = Some [] /\
  fst (queue_empty 0%nat s') = Return true /\
  exists new,
    channel (self s') = Some new /\ new <> 0%nat /\
    queues busy_sys !! new = None /\ queues s' !! new = Some [].
Proof.
  apply (reset_channel_drain_then_empty 3 None busy_sys 0%nat [VInt 1; VStr "batch"]).
  - reflexivity.
  - reflexivity.
  - cbn. lia.
Defined.

(** The part of [__exit__] after the guarded reset. *)
Lemma exit_no_channel (fuel : nat) (s : Sys) (i : option DataLoaderIterator) (d : Z) :
  channel (self s) = None ->
  _iterator (self s) = Attr i ->
  _prefetch_old (self s) = Attr d ->
  exists s',
    __exit__ fuel s = (Return tt, s') /\
    channel (self s') = None /\
    queues s' = queues s /\
    trace s' = trace s ++
      (if match i with Some it => iterator_truthy it | None => false end
       then [EvDelIterator; EvBarrier] else []).
Proof.
  intros Hc Hi Hd.
  unfold __exit__, bind, get_self, iterator_attr_truthy, bind, get_self.
  cbn. rewrite Hc. cbn. rewrite Hi.
  destruct i as [it|]; cbn.
  - destruct (iterator_truthy it); cbn.
    + rewrite Hd. cbn. eexists. split; [reflexivity|]. cbn.
      rewrite Hc, <- app_assoc. auto.
    + eexists. split; [reflexivity|]. cbn. rewrite app_nil_r. auto.
  - eexists. split; [reflexivity|]. cbn. rewrite app_nil_r. auto.
Qed.

(** C10. [reset_channel] needs a channel and a sampler.  On a loader whose
    channel is [None] the call raises [AttributeError] at the first test of
    the loop and changes nothing; with a channel but no sampler it raises
    [AttributeError] at the last step; a call that returns had both.  On a
    loader without channel [__exit__] does not reach [reset_channel]: it
    returns, and the channel and the store are as before. *)
Theorem reset_channel_needs_channel (fuel : nat) (supplied : option ref) (s : Sys) :
  (channel (self s) = None -> (0 < fuel)%nat ->
     reset_channel fuel supplied s = (Raise (none_has_no "empty"), s)) /\
  (forall q msgs,
     channel (self s) = Some q -> queues s !! q = Some msgs ->
     (length msgs < fuel)%nat -> dist_sampler (self s) = None ->
     fst (reset_channel fuel supplied s) = Raise (none_has_no "channel")) /\
  (forall s',
     reset_channel fuel supplied s = (Return tt, s') ->
     is_Some (channel (self s)) /\ is_Some (dist_sampler (self s))) /\
  (forall i d,
     channel (self s) = None ->
     _iterator (self s) = Attr i -> _prefetch_old (self s) = Attr d ->
     exists s',
       __exit__ fuel s = (Return tt, s') /\
       channel (self s') = None /\ queues s' = queues s).
Proof.
  split; [|split; [|split]].
  - intros Hc Hf. destruct fuel; [lia|].
    unfold reset_channel. cbn [while].
    erewrite bind_raise
      by (eapply bind_raise; eapply channel_not_empty_no_channel; eassumption).
    reflexivity.
  - intros q msgs Hc Hq Hf Hs.
    rewrite (reset_channel_run fuel supplied s q msgs Hc Hq Hf).
    now rewrite propagate_channel_no_sampler.
  - intros s' Hrun.
    destruct (reset_channel_returns_inv fuel supplied s s' Hrun)
      as (q & msgs & smp & Hc & Hq & Hs & Hf).
    rewrite Hc, Hs. split; eexists; reflexivity.
  - intros i d Hc Hi Hd.
    destruct (exit_no_channel fuel s i d Hc Hi Hd) as (s' & Hrun & Hc' & Hq' & _).
    now exists s'.
Qed.

Lemma reset_channel_needs_channel_witness :
  reset_channel 1 None plain_sys = (Raise (none_has_no "empty"), plain_sys) /\
  exists s', __exit__ 1 plain_sys = (Return tt, s') /\ channel (self s') = None.
Proof.
  destruct (reset_channel_needs_channel 1 None plain_sys) as (H1 & _ & _ & H4).
  split.
  - apply H1; [reflexivity|lia].
  - destruct (H4 (Some (mkIterator 0 5)) 8 eq_refl eq_refl eq_refl)
      as (s' & Hrun & Hc & _).
    now exists s'.
Defined.

(** ** Channel read *)

(** C7. Without channel, [channel_get(out)] returns [out] and changes
    nothing.  With a channel the placeholder is ignored: when the queue holds
    a message the oldest one is removed and returned; when it holds none the
    caller is blocked, and as soon as a producer has put a message the call
    returns that message. *)
Theorem channel_get_pass_through (out : value) (s : Sys) :
  (channel (self s) = None -> channel_get out s = (Return out, s)) /\
  (forall q m rest,
     channel (self s) = Some q -> queues s !! q = Some (m :: rest) ->
     channel_get out s =
     (Return m,
      mkSys (self s) (<[q := rest]> (queues s)) (iterators_made s)
            (trace s ++ [EvGet q m]))) /\
  (forall q,
     channel (self s) = Some q -> queues s !! q = Some [] ->
     channel_get out s = (Blocked, s) /\
     forall m, fst (channel_get out (queue_put q m s)) = Return m).
Proof.
  split; [|split].
  - intros Hc. unfold channel_get, bind, get_self. cbn. now rewrite Hc.
  - intros q m rest Hc Hq.
    unfold channel_get, bind, get_self, queue_get, read_queue, get_queues, bind.
    cbn. rewrite Hc. cbn. now rewrite Hq.
  - intros q Hc Hq. split.
    + unfold channel_get, bind, get_self, queue_get, read_queue, get_queues, bind.
      cbn. rewrite Hc. cbn. now rewrite Hq.
    + intros m.
      assert (Hlt : (q < length (queues s))%nat) by (eapply lookup_lt_Some; eauto).
      unfold channel_get, bind, get_self, queue_put, queue_get, read_queue,
        get_queues, bind.
      rewrite Hq. cbn. rewrite Hc. cbn.
      now rewrite list_lookup_insert_eq.
Qed.

Lemma channel_get_pass_through_witness :
  channel_get (VStr "placeholder") plain_sys = (Return (VStr "placeholder"), plain_sys) /\
  fst (channel_get (VStr "placeholder") busy_sys) = Return (VInt 1) /\
  fst (channel_get VNone (sys0 (loader0 1 0 0 None (Some 0%nat) 1) [[]])) = Blocked /\
  fst (channel_get VNone
         (queue_put 0%nat (VInt 5) (sys0 (loader0 1 0 0 None (Some 0%nat) 1) [[]])))
    = Return (VInt 5).
Proof.
  split; [|split; [|split]].
  - now apply (channel_get_pass_through (VStr "placeholder") plain_sys).
  - destruct (channel_get_pass_through (VStr "placeholder") busy_sys) as (_ & H & _).
    now rewrite (H 0%nat (VInt 1) [VStr "batch"] eq_refl eq_refl).
  - destruct (channel_get_pass_through VNone
                (sys0 (loader0 1 0 0 None (Some 0%nat) 1) [[]])) as (_ & _ & H).
    destruct (H 0%nat eq_refl eq_refl) as [Hb _]. now rewrite Hb.
  - destruct (channel_get_pass_through VNone
                (sys0 (loader0 1 0 0 None (Some 0%nat) 1) [[]])) as (_ & _ & H).
    destruct (H 0%nat eq_refl eq_refl) as [_ Hp]. apply Hp.
Defined.

(** ** Process identity *)

Lemma format_int_parses (z : Z) :
  NilZero.int_of_string (format_int z) = Some (Z.to_int z).
Proof.
  unfold format_int. destruct z as [|p|p]; [reflexivity| |].
  - apply NilZero.isi; cbn; intros [= E];
      now apply (DecimalPos.Unsigned.to_uint_nonnil p).
  - apply NilZero.isi; cbn; intros [= E];
      now apply (DecimalPos.Unsigned.to_uint_nonnil p).
Qed.

(** C8. The textual representation of a loader is its class name, then
    [(pid=], then the decimal numeral of its process identifier, then [)]:
    the text between [(pid=] and [)] reads back as the integer [pid]. *)
Theorem repr_format (l : DistLoader) :
  exists numeral,
    repr l = class_name l +:+ "(pid=" +:+ numeral +:+ ")" /\
    option_map Z.of_int (NilZero.int_of_string numeral) = Some (pid l).
Proof.
  exists (format_int (pid l)). split; [reflexivity|].
  rewrite format_int_parses. cbn. now rewrite DecimalZ.of_to.
Qed.

Example repr_DistLoader_4242 :
  repr (mkLoader "DistLoader" None (ctx0 1 0) None 4242 0 Unset 2 Unset Unset 0)
  = "DistLoader(pid=4242)".
Proof. reflexivity. Qed.

(** ** Worker initialisation failure *)

Lemma worker_init_fn_sampler_raises (k : Z) (s : Sys)
    (smp : DistNeighborSampler) (e : exc) :
  dist_sampler (self s) = Some smp ->
  init_raises smp = Some e ->
  fst (worker_init_fn k s) =
  Raise (if is_runtime_error e
         then Exc RuntimeError (init_failure_message (self s)) (Some e)
         else e).
Proof.
  intros Hs He.
  unfold worker_init_fn, try_except_RuntimeError, init_sampler_instance, bind, get_self.
  cbn. rewrite Hs. cbn. rewrite He. cbn.
  destruct (is_runtime_error e); reflexivity.
Qed.

(** C4, as stated, fails: for workers 3 and 5 of the same loader the error
    is the same, with a message that names the loader and its stored pid but
    no worker id: the numeral 3 does not occur in it, and the worker id
    cannot be told from it. *)
Lemma worker_init_message_omits_worker :
  init_error_message failing_sys 3 =
    Some "`DistLoader(pid=7).init_fn()` could not initialize the worker loop of the neighbor sampler" /\
  init_error_message failing_sys 5 = init_error_message failing_sys 3 /\
  String.index 0 (format_int 3)
    "`DistLoader(pid=7).init_fn()` could not initialize the worker loop of the neighbor sampler"
    = None /\
  ~ message_identifies_worker.
Proof.
  split; [reflexivity|]. split; [reflexivity|]. split; [reflexivity|].
  intros H.
  specialize (H failing_sys 3 5 _ eq_refl eq_refl). discriminate.
Qed.

(** C4, amended.  For every worker id [k]: when [init_sampler_instance()]
    raises a [RuntimeError] (or an instance of a subclass) [e],
    [worker_init_fn(k)] raises a new [RuntimeError] whose message is
    [`<repr of the loader>.init_fn()` could not initialize the worker loop of
    the neighbor sampler], the same text for every [k], with [e] as its
    context; an error of another class leaves [worker_init_fn] unchanged; and
    the call returns only when the sampler's call returned. *)
Theorem worker_init_failure_propagates (k : Z) (s : Sys)
    (smp : DistNeighborSampler) (e : exc) :
  dist_sampler (self s) = Some smp ->
  init_raises smp = Some e ->
  (is_runtime_error e = true ->
     fst (worker_init_fn k s) =
     Raise (Exc RuntimeError (init_failure_message (self s)) (Some e))) /\
  (is_runtime_error e = false -> fst (worker_init_fn k s) = Raise e) /\
  fst (worker_init_fn k s) <> Return tt /\
  (forall k', fst (worker_init_fn k' s) = fst (worker_init_fn k s)).
Proof.
  intros Hs He.
  pose proof (worker_init_fn_sampler_raises k s smp e Hs He) as Hk.
  split; [|split; [|split]].
  - intros Hr. now rewrite Hk, Hr.
  - intros Hr. now rewrite Hk, Hr.
  - rewrite Hk. discriminate.
  - intros k'. now rewrite Hk, (worker_init_fn_sampler_raises k' s smp e Hs He).
Qed.

Lemma worker_init_failure_propagates_witness :
  fst (worker_init_fn 3 failing_sys) =
  Raise (Exc RuntimeError
           "`DistLoader(pid=7).init_fn()` could not initialize the worker loop of the neighbor sampler"
           (Some (Exc RuntimeError "CUDA error: out of memory" None))).
Proof.
  destruct (worker_init_failure_propagates 3 failing_sys failing_sampler
              (Exc RuntimeError "CUDA error: out of memory" None) eq_refl eq_refl)
    as (H & _).
  rewrite (H eq_refl). reflexivity.
Defined.

(** The call returns exactly when there is a sampler whose
    [init_sampler_instance()] returns. *)
Lemma worker_init_fn_returns (k : Z) (s : Sys) :
  fst (worker_init_fn k s) = Return tt <->
  exists smp, dist_sampler (self s) = Some smp /\ init_raises smp = None.
Proof.
  split.
  - intros H.
    destruct (dist_sampler (self s)) as [smp|] eqn:Hs.
    + destruct (init_raises smp) as [e|] eqn:He; [|now exists smp].
      rewrite (worker_init_fn_sampler_raises k s smp e Hs He) in H. discriminate.
    + revert H.
      unfold worker_init_fn, try_except_RuntimeError, init_sampler_instance, bind, get_self.
      cbn. rewrite Hs. cbn. discriminate.
  - intros (smp & Hs & He).
    unfold worker_init_fn, try_except_RuntimeError, init_sampler_instance, bind, get_self.
    cbn. rewrite Hs. cbn. rewrite He. reflexivity.
Qed.

(** ** Scoped warm-up *)

Lemma enter_run (s : Sys) :
  __enter__ s =
  (Return (mkIterator (iterators_made s) (num_batches (self s))),
   mkSys (set_iterator
            (Attr (Some (mkIterator (iterators_made s) (num_batches (self s)))))
            (set_prefetch_factor 1
               (set_prefetch_old (prefetch_factor (self s)) (self s))))
         (queues s) (S (iterators_made s))
         (trace s ++ [EvGetIterator (iterators_made s)])).
Proof. reflexivity. Qed.

Lemma exit_after_reset (s : Sys) (it : DataLoaderIterator) (d : Z) :
  _iterator (self s) = Attr (Some it) ->
  iterator_truthy it = true ->
  _prefetch_old (self s) = Attr d ->
  exists s',
    (let* t := iterator_attr_truthy in
     if t then
       modify_self (set_iterator Unset) >>
       emit EvDelIterator >>
       barrier >>
       modify_self (set_iterator (Attr None)) >>
       let* l := get_self in
       match _prefetch_old l with
       | Attr old => modify_self (set_prefetch_factor old)
       | Unset => raise (no_attribute (class_name l) "_prefetch_old")
       end
     else ret tt) s = (Return tt, s') /\
    prefetch_factor (self s') = d /\
    _iterator (self s') = Attr None /\
    trace s' = trace s ++ [EvDelIterator; EvBarrier].
Proof.
  intros Hi Ht Hd.
  unfold iterator_attr_truthy, bind, get_self. cbn. rewrite Hi, Ht. cbn.
  rewrite Hd. cbn. eexists. split; [reflexivity|]. cbn.
  now rewrite <- app_assoc.
Qed.

Lemma exit_restores (fuel : nat) (s : Sys) (it : DataLoaderIterator) (d : Z) :
  _iterator (self s) = Attr (Some it) ->
  iterator_truthy it = true ->
  _prefetch_old (self s) = Attr d ->
  reset_can_run fuel s ->
  exists s',
    __exit__ fuel s = (Return tt, s') /\
    prefetch_factor (self s') = d /\
    _iterator (self s') = Attr None.
Proof.
  intros Hi Ht Hd [Hc|(q & msgs & smp & Hc & Hq & Hs & Hf)].
  - unfold __exit__.
    erewrite (bind_return get_self) by reflexivity. rewrite Hc.
    erewrite (bind_return (ret tt)) by reflexivity.
    destruct (exit_after_reset s it d Hi Ht Hd) as (s' & Hrun & Hp & Hi' & _).
    exists s'. auto.
  - unfold __exit__.
    erewrite (bind_return get_self) by reflexivity. rewrite Hc.
    erewrite (bind_return (reset_channel fuel None))
      by (rewrite (reset_channel_run fuel None s q msgs Hc Hq Hf);
          apply (propagate_channel_run _ smp); [exact Hs|reflexivity]).
    match goal with
    | |- exists s', _ ?s1 = _ /\ _ =>
        destruct (exit_after_reset s1 it d) as (s' & Hrun & Hp & Hi' & _);
          [exact Hi|exact Ht|exact Hd|]
    end.
    exists s'. auto.
Qed.

(** C5, as stated, fails, in two ways.  A loader without batches gets an
    iterator of length 0, which is false in [if self._iterator]: [__exit__]
    returns without restoring, and the depth 8 has become 1.  A loader with a
    channel but no sampler fails in the reset that [__exit__] starts with,
    before the restore is reached. *)
Lemma warm_up_not_restored :
  (exists s',
     (__enter__ >> __exit__ 1) empty_sys = (Return tt, s') /\
     prefetch_factor (self empty_sys) = 8 /\
     prefetch_factor (self s') = 1) /\
  (exists s',
     (__enter__ >> __exit__ 1) lonely_sys = (Raise (none_has_no "channel"), s') /\
     prefetch_factor (self lonely_sys) = 8 /\
     prefetch_factor (self s') = 1).
Proof. split; eexists; repeat split. Qed.

(** C5, amended.  [__enter__] saves the prefetch depth [d], sets the depth
    to exactly 1, and returns the iterator it has just created and stored.
    From any later state of the scope that still holds this iterator and the
    saved depth, whatever the current depth is, [__exit__] returns with the
    depth restored to [d], provided the iterator is true (it has at least one
    batch) and the reset of a configured channel can run. *)
Theorem warm_up_round_trip (s : Sys) :
  exists it s1,
    __enter__ s = (Return it, s1) /\
    prefetch_factor (self s1) = 1 /\
    _prefetch_old (self s1) = Attr (prefetch_factor (self s)) /\
    _iterator (self s1) = Attr (Some it) /\
    iter_id it = iterators_made s /\
    iterators_made s1 = S (iterators_made s) /\
    forall fuel s2,
      _iterator (self s2) = _iterator (self s1) ->
      _prefetch_old (self s2) = _prefetch_old (self s1) ->
      iterator_truthy it = true ->
      reset_can_run fuel s2 ->
      exists s3,
        __exit__ fuel s2 = (Return tt, s3) /\
        prefetch_factor (self s3) = prefetch_factor (self s).
Proof.
  eexists. eexists. split; [apply enter_run|]. cbn.
  repeat (split; [reflexivity|]).
  intros fuel s2 Hi Hd Ht Hr.
  destruct (exit_restores fuel s2 _ _ Hi Ht Hd Hr) as (s3 & Hrun & Hp & _).
  now exists s3.
Qed.

Lemma warm_up_round_trip_witness :
  exists s3,
    (__enter__ >> modify_self (set_prefetch_factor 4) >> __exit__ 3) busy_sys
      = (Return tt, s3) /\
    prefetch_factor (self busy_sys) = 8 /\
    prefetch_factor (self s3) = 8.
Proof.
  destruct (warm_up_round_trip busy_sys)
    as (it & s1 & Henter & _ & _ & _ & _ & _ & Hexit).
  rewrite enter_run in Henter. injection Henter as <- <-.
  set (s2 := snd ((__enter__ >> modify_self (set_prefetch_factor 4)) busy_sys)).
  destruct (Hexit 3%nat s2) as (s3 & Hrun & Hp).
  - reflexivity.
  - reflexivity.
  - reflexivity.
  - right. exists 0%nat, [VInt 1; VStr "batch"], sampler0.
    repeat split. cbn. lia.
  - exists s3. split; [|split; [reflexivity|exact Hp]].
    rewrite <- Hrun. reflexivity.
Defined.

(** * Further properties *)

(** ** Construction *)

Lemma init_run (current_pid : Z) (ctx : DistContext) (ch : option ref)
    (smp : option DistNeighborSampler) (kwargs : gmap string Z) (s : Sys) :
  __init__ current_pid ctx ch smp kwargs s =
  (Return tt,
   mkSys (mkLoader (class_name (self s)) smp ctx ch current_pid
            (default 0 (kwargs !! "num_workers"))
            (current_ctx_worker (self s)) (prefetch_factor (self s))
            (_prefetch_old (self s)) (_iterator (self s)) (num_batches (self s)))
         (queues s) (iterators_made s) (trace s)).
Proof. reflexivity. Qed.

(** X1. A loader constructed without a [num_workers] keyword argument, or
    with one that is not positive, is its own single worker: the context
    [worker_init_fn(w)] derives has the parent's [world_size] and the rank
    [R + w].  Keyword arguments other than [num_workers] have no effect on
    the constructed loader. *)
Theorem init_default_pool (current_pid : Z) (ctx : DistContext) (ch : option ref)
    (smp : option DistNeighborSampler) (kwargs : gmap string Z) (s : Sys) (w : Z) :
  default 0 (kwargs !! "num_workers") <= 0 ->
  let s1 := snd (__init__ current_pid ctx ch smp kwargs s) in
  derived_ctx s1 w =
    Attr {| world_size := world_size ctx; rank := rank ctx + w;
            global_world_size := world_size ctx; global_rank := rank ctx + w;
            group_name := "mp_sampling_worker" |} /\
  forall (k : string) (v : Z),
    k <> "num_workers" ->
    __init__ current_pid ctx ch smp (<[k := v]> kwargs) s =
    __init__ current_pid ctx ch smp kwargs s.
Proof.
  intros Hn s1. split.
  - pose proof (derived_ctx_eq s1 w) as E. cbn zeta in E. rewrite E.
    subst s1. rewrite init_run. cbn.
    destruct (Z.ltb_spec 0 (default 0 (kwargs !! "num_workers"))); [lia|].
    now rewrite !Z.mul_1_r.
  - intros k v Hk. rewrite !init_run.
    now rewrite lookup_insert_ne.
Qed.

Lemma init_default_pool_witness :
  derived_ctx
    (snd (__init__ 4242 (ctx0 3 2) None None {[ "prefetch_factor" := 4 ]}
            (sys0 (blank "DistLoader" 2 10) []))) 0
  = Attr {| world_size := 3; rank := 2; global_world_size := 3; global_rank := 2;
            group_name := "mp_sampling_worker" |}.
Proof.
  destruct (init_default_pool 4242 (ctx0 3 2) None None {[ "prefetch_factor" := 4 ]}
              (sys0 (blank "DistLoader" 2 10) []) 0) as [H _].
  - vm_compute. discriminate.
  - exact H.
Defined.

(** ** Worker initialisation *)

(** X2. With a sampler whose [init_sampler_instance()] returns,
    [worker_init_fn(w)] returns; its only effect besides the stored context
    is the sampler's initialisation: no queue is read or written, no barrier
    is passed, and the loader's and the sampler's channel stay as they
    were. *)
Theorem worker_init_fn_success (w : Z) (s : Sys) (smp : DistNeighborSampler) :
  dist_sampler (self s) = Some smp ->
  init_raises smp = None ->
  exists s',
    worker_init_fn w s = (Return tt, s') /\
    dist_sampler (self s') = Some (mkSampler (sampler_channel smp) None true) /\
    channel (self s') = channel (self s) /\
    queues s' = queues s /\
    trace s' = trace s ++ [EvInitSampler].
Proof.
  intros Hs He.
  unfold worker_init_fn, try_except_RuntimeError, init_sampler_instance, bind, get_self.
  cbn. rewrite Hs. cbn. rewrite He. cbn.
  eexists. split; [reflexivity|]. cbn. auto.
Qed.

Lemma worker_init_fn_success_witness :
  exists s',
    worker_init_fn 2 busy_sys = (Return tt, s') /\
    queues s' = queues busy_sys /\
    trace s' = [EvInitSampler].
Proof.
  destruct (worker_init_fn_success 2 busy_sys sampler0 eq_refl eq_refl)
    as (s' & Hrun & _ & _ & Hq & Ht).
  exists s'. split; [exact Hrun|]. split; [exact Hq|exact Ht].
Defined.

(** X3. On a loader without sampler (the default of [__init__]),
    [worker_init_fn(w)] raises the [AttributeError] of the attribute access
    on [None] as it is: the handler for [RuntimeError] does not apply to it.
    The derived context has been stored all the same, and nothing else has
    changed. *)
Theorem worker_init_fn_without_sampler (w : Z) (s : Sys) :
  dist_sampler (self s) = None ->
  exists c,
    derived_ctx s w = Attr c /\
    worker_init_fn w s =
    (Raise (none_has_no "init_sampler_instance"),
     mkSys (set_current_ctx_worker c (self s)) (queues s) (iterators_made s) (trace s)) /\
    is_runtime_error (none_has_no "init_sampler_instance") = false.
Proof.
  intros Hs. eexists. split; [apply derived_ctx_eq|]. split; [|reflexivity].
  unfold worker_init_fn, try_except_RuntimeError, init_sampler_instance, bind, get_self.
  cbn. rewrite Hs. reflexivity.
Qed.

Lemma worker_init_fn_without_sampler_witness :
  fst (worker_init_fn 1 plain_sys) =
  Raise (Exc AttributeError
           "'NoneType' object has no attribute 'init_sampler_instance'" None).
Proof.
  destruct (worker_init_fn_without_sampler 1 plain_sys eq_refl) as (c & _ & Hrun & _).
  rewrite Hrun. reflexivity.
Defined.

(** X4. The derivation always starts from the parent context: a call of
    [worker_init_fn], whatever its outcome, does not change what a later
    call derives, so initialising again does not multiply the rank a second
    time. *)
Theorem worker_init_fn_rederives (s : Sys) (w1 w2 : Z) :
  derived_ctx (snd (worker_init_fn w1 s)) w2 = derived_ctx s w2.
Proof.
  pose proof (derived_ctx_eq (snd (worker_init_fn w1 s)) w2) as E1.
  pose proof (derived_ctx_eq s w2) as E2. cbn zeta in E1, E2.
  rewrite E1, E2.
  assert (H : current_ctx (self (snd (worker_init_fn w1 s))) = current_ctx (self s) /\
              num_workers (self (snd (worker_init_fn w1 s))) = num_workers (self s)).
  { unfold worker_init_fn, try_except_RuntimeError, init_sampler_instance, bind, get_self.
    cbn. destruct (dist_sampler (self s)) as [smp|]; cbn; [|auto].
    destruct (init_raises smp) as [e|]; cbn; [|auto].
    destruct (is_runtime_error e); cbn; auto. }
  destruct H as [-> ->]. reflexivity.
Qed.

(** X5. [worker_init_fn] accepts any [worker_id]: an id [P] too large gives
    the [global_rank] of a worker of the next group, so the uniqueness of
    C1 rests on the caller keeping the ids below the pool size [P]. *)
Theorem worker_id_beyond_pool_aliases (s1 s2 : Sys) (w : Z) :
  num_workers (self s1) = num_workers (self s2) ->
  rank (current_ctx (self s2)) = rank (current_ctx (self s1)) + 1 ->
  let P := Z.max (num_workers (self s1)) 1 in
  worker_global_rank s1 (w + P) = worker_global_rank s2 w.
Proof.
  intros Hn Hr P. rewrite !worker_global_rank_eq, <- Hn, Hr. fold P.
  f_equal. lia.
Qed.

Lemma worker_id_beyond_pool_aliases_witness :
  worker_global_rank (sys0 (loader0 2 0 4 None None 0) []) (1 + 4) =
  worker_global_rank (sys0 (loader0 2 1 4 None None 0) []) 1.
Proof.
  apply (worker_id_beyond_pool_aliases
           (sys0 (loader0 2 0 4 None None 0) [])
           (sys0 (loader0 2 1 4 None None 0) []) 1); reflexivity.
Defined.

(** ** What the methods leave alone *)

Section Frame.

Variable J : DistLoader -> Prop.

Lemma stable_ret {A} (a : A) (Q : A -> Prop) : Q a -> stable J (ret a) Q.
Proof. intros HQ s HJ. cbn. split; [exact HJ|]. now intros ? [= <-]. Qed.

Lemma stable_raise {A} (e : exc) (Q : A -> Prop) : stable J (raise e) Q.
Proof. intros s HJ. cbn. split; [exact HJ|]. discriminate. Qed.

Lemma stable_block {A} (Q : A -> Prop) : stable J (@block A) Q.
Proof. intros s HJ. cbn. split; [exact HJ|]. discriminate. Qed.

Lemma stable_bind {A B} (m : M A) (k : A -> M B) (Q : A -> Prop) (Q' : B -> Prop) :
  stable J m Q -> (forall a, Q a -> stable J (k a) Q') -> stable J (bind m k) Q'.
Proof.
  intros Hm Hk s HJ. destruct (Hm s HJ) as [HJ' HQ].
  unfold bind. destruct (m s) as [[a| | |] s']; cbn in *;
    try (split; [exact HJ'|discriminate]).
  exact (Hk a (HQ a eq_refl) s' HJ').
Qed.

Lemma stable_weaken {A} (m : M A) (Q Q' : A -> Prop) :
  stable J m Q -> (forall a, Q a -> Q' a) -> stable J m Q'.
Proof.
  intros Hm HQ s HJ. destruct (Hm s HJ) as [HJ' H]. split; [exact HJ'|].
  intros a Ha. apply HQ, H, Ha.
Qed.

Lemma stable_get_self : stable J get_self J.
Proof. intros s HJ. cbn. split; [exact HJ|]. now intros ? [= <-]. Qed.

Lemma stable_put_self (l : DistLoader) : J l -> stable J (put_self l) (fun _ => True).
Proof. intros Hl s HJ. cbn. auto. Qed.

Lemma stable_get_queues : stable J get_queues (fun _ => True).
Proof. intros s HJ. cbn. auto. Qed.

Lemma stable_put_queues (qs : list (list value)) :
  stable J (put_queues qs) (fun _ => True).
Proof. intros s HJ. cbn. auto. Qed.

Lemma stable_emit (e : event) : stable J (emit e) (fun _ => True).
Proof. intros s HJ. cbn. auto. Qed.

Lemma stable_modify_self (f : DistLoader -> DistLoader) :
  (forall l, J l -> J (f l)) -> stable J (modify_self f) (fun _ => True).
Proof. intros Hf s HJ. cbn. auto. Qed.

Lemma stable_while (fuel : nat) (cond : M bool) (body : M unit) :
  stable J cond (fun _ => True) ->
  stable J body (fun _ => True) ->
  stable J (while fuel cond body) (fun _ => True).
Proof.
  intros Hc Hb. induction fuel as [|fuel IH]; cbn [while].
  - intros s HJ. cbn. auto.
  - eapply stable_bind; [exact Hc|]. intros [|] _.
    + eapply stable_bind; [exact Hb|]. intros _ _. exact IH.
    + now apply stable_ret.
Qed.

Lemma stable_try {A} (body : M A) (handler : exc -> M A) (Q : A -> Prop) :
  stable J body Q -> (forall e, stable J (handler e) Q) ->
  stable J (try_except_RuntimeError body handler) Q.
Proof.
  intros Hb Hh s HJ. destruct (Hb s HJ) as [HJ' HQ].
  unfold try_except_RuntimeError.
  destruct (body s) as [[a|e| |] s']; cbn in *.
  - auto.
  - destruct (is_runtime_error e); [exact (Hh e s' HJ')|].
    split; [exact HJ'|discriminate].
  - split; [exact HJ'|discriminate].
  - split; [exact HJ'|discriminate].
Qed.

Lemma stable_read_queue (q : ref) : stable J (read_queue q) (fun _ => True).
Proof.
  eapply stable_bind; [apply stable_get_queues|]. intros qs _.
  destruct (qs !! q); [now apply stable_ret|apply stable_raise].
Qed.

(** The methods that work on the channel. *)

Hypothesis J_set_channel : forall c l, J l -> J (set_channel c l).
Hypothesis J_set_dist_sampler : forall d l, J l -> J (set_dist_sampler d l).

Lemma stable_channel_get (out : value) : stable J (channel_get out) (fun _ => True).
Proof.
  eapply stable_bind; [apply stable_get_self|]. intros l _.
  destruct (channel l); [|now apply stable_ret].
  eapply stable_bind; [apply stable_read_queue|]. intros [|m rest] _.
  - apply stable_block.
  - eapply stable_bind; [apply stable_get_queues|]. intros qs _.
    eapply stable_bind; [apply stable_put_queues|]. intros _ _.
    eapply stable_bind; [apply stable_emit|]. intros _ _. now apply stable_ret.
Qed.

Lemma stable_channel_not_empty : stable J channel_not_empty (fun _ => True).
Proof.
  eapply stable_bind; [apply stable_get_self|]. intros l _.
  destruct (channel l); [|apply stable_raise].
  eapply stable_bind with (Q := fun _ => True); [|intros; now apply stable_ret].
  eapply stable_bind; [apply stable_read_queue|]. intros ms _.
  eapply stable_bind; [apply stable_emit|]. intros _ _. now apply stable_ret.
Qed.

Lemma stable_channel_get_nowait : stable J channel_get_nowait (fun _ => True).
Proof.
  eapply stable_bind; [apply stable_get_self|]. intros l _.
  destruct (channel l); [|apply stable_raise].
  eapply stable_bind with (Q := fun _ => True); [|intros; now apply stable_ret].
  eapply stable_bind; [apply stable_read_queue|]. intros [|m rest] _.
  - apply stable_raise.
  - eapply stable_bind; [apply stable_get_queues|]. intros qs _.
    eapply stable_bind; [apply stable_put_queues|]. intros _ _.
    eapply stable_bind; [apply stable_emit|]. intros _ _. now apply stable_ret.
Qed.

Lemma stable_propagate_channel : stable J propagate_channel (fun _ => True).
Proof.
  eapply stable_bind; [apply stable_get_self|]. intros l Hl.
  destruct (dist_sampler l); [|apply stable_raise].
  eapply stable_bind; [apply stable_put_self; now apply J_set_dist_sampler|].
  intros _ _. destruct (channel l); [apply stable_emit|now apply stable_ret].
Qed.

Lemma stable_reset_channel (fuel : nat) (supplied : option ref) :
  stable J (reset_channel fuel supplied) (fun _ => True).
Proof.
  eapply stable_bind;
    [apply stable_while; [apply stable_channel_not_empty|apply stable_channel_get_nowait]|].
  intros _ _. eapply stable_bind; [apply stable_emit|]. intros _ _.
  eapply stable_bind with (Q := fun _ => True).
  - destruct supplied; [now apply stable_ret|].
    eapply stable_bind; [apply stable_get_queues|]. intros qs _.
    eapply stable_bind; [apply stable_put_queues|]. intros _ _.
    eapply stable_bind; [apply stable_emit|]. intros _ _. now apply stable_ret.
  - intros c _.
    eapply stable_bind; [apply stable_modify_self; intros; now apply J_set_channel|].
    intros _ _. eapply stable_bind; [apply stable_emit|]. intros _ _.
    apply stable_propagate_channel.
Qed.

(** Worker initialisation. *)

Hypothesis J_set_current_ctx_worker : forall c l, J l -> J (set_current_ctx_worker c l).

Lemma stable_worker_init_fn (w : Z) : stable J (worker_init_fn w) (fun _ => True).
Proof.
  apply stable_try.
  - eapply stable_bind; [apply stable_get_self|]. intros l Hl.
    eapply stable_bind;
      [apply stable_put_self; now apply J_set_current_ctx_worker|].
    intros _ _.
    eapply stable_bind; [apply stable_get_self|]. intros l' Hl'.
    destruct (dist_sampler l') as [smp|]; [|apply stable_raise].
    destruct (init_raises smp); [apply stable_raise|].
    eapply stable_bind; [apply stable_put_self; now apply J_set_dist_sampler|].
    intros _ _. apply stable_emit.
  - intros e. eapply stable_bind; [apply stable_get_self|]. intros l _.
    apply stable_raise.
Qed.

(** The warm-up scope. *)

Hypothesis J_set_prefetch_factor : forall p l, J l -> J (set_prefetch_factor p l).
Hypothesis J_set_prefetch_old : forall p l, J l -> J (set_prefetch_old p l).
Hypothesis J_set_iterator : forall i l, J l -> J (set_iterator i l).

Lemma stable_enter : stable J __enter__ (fun _ => True).
Proof.
  eapply stable_bind; [apply stable_get_self|]. intros l Hl.
  eapply stable_bind; [apply stable_put_self; now apply J_set_prefetch_old|].
  intros _ _.
  eapply stable_bind;
    [apply stable_modify_self; intros; now apply J_set_prefetch_factor|].
  intros _ _.
  eapply stable_bind with (Q := fun _ => True).
  - intros s HJ. cbn. auto.
  - intros it _.
    eapply stable_bind; [apply stable_modify_self; intros; now apply J_set_iterator|].
    intros _ _. now apply stable_ret.
Qed.

Lemma stable_exit (fuel : nat) : stable J (__exit__ fuel) (fun _ => True).
Proof.
  eapply stable_bind; [apply stable_get_self|]. intros l0 _.
  eapply stable_bind with (Q := fun _ => True).
  - destruct (channel l0); [apply stable_reset_channel|now apply stable_ret].
  - intros _ _.
    eapply stable_bind with (Q := fun _ => True).
    + eapply stable_bind; [apply stable_get_self|]. intros l _.
      destruct (_iterator l) as [|[it|]];
        [apply stable_raise|now apply stable_ret|now apply stable_ret].
    + intros [|] _; [|now apply stable_ret].
      eapply stable_bind; [apply stable_modify_self; intros; now apply J_set_iterator|].
      intros _ _. eapply stable_bind; [apply stable_emit|]. intros _ _.
      eapply stable_bind; [apply stable_emit|]. intros _ _.
      eapply stable_bind; [apply stable_modify_self; intros; now apply J_set_iterator|].
      intros _ _. eapply stable_bind; [apply stable_get_self|]. intros l _.
      destruct (_prefetch_old l);
        [apply stable_raise
        |apply stable_modify_self; intros; now apply J_set_prefetch_factor].
Qed.

End Frame.

(** The side conditions of the rules above: the assignments of a method
    leave the property alone, and the property holds at the start. *)
Ltac frame_side HJ := first [exact HJ | intros ? ? H; hnf in H |- *; exact H].

Lemma identity_repr (l l' : DistLoader) : identity l = identity l' -> repr l = repr l'.
Proof. unfold identity, repr. now intros [= -> -> _ _ _]. Qed.

(** X6. No method changes what identifies the loader: after [channel_get],
    [reset_channel], [worker_init_fn], [__enter__] or [__exit__], whether the
    call returned, raised or is blocked, the class, the stored pid, the parent
    context, [num_workers] and the batches are as before.  The pid is the one
    stored at construction, also for a call made in a worker process. *)
Theorem methods_keep_identity (s : Sys) (fuel : nat) (supplied : option ref)
    (out : value) (w : Z) :
  identity (self (snd (channel_get out s))) = identity (self s) /\
  identity (self (snd (reset_channel fuel supplied s))) = identity (self s) /\
  identity (self (snd (worker_init_fn w s))) = identity (self s) /\
  identity (self (snd (__enter__ s))) = identity (self s) /\
  identity (self (snd (__exit__ fuel s))) = identity (self s).
Proof.
  set (J := fun l => identity l = identity (self s)).
  assert (HJ : J (self s)) by reflexivity.
  split; [|split; [|split; [|split]]].
  - now apply (stable_channel_get J out s).
  - apply (stable_reset_channel J); frame_side HJ.
  - apply (stable_worker_init_fn J); frame_side HJ.
  - apply (stable_enter J); frame_side HJ.
  - apply (stable_exit J); frame_side HJ.
Qed.

(** X7. The channel and worker methods do not touch the warm-up scope:
    [channel_get], [reset_channel] and [worker_init_fn], whatever their
    outcome, leave [prefetch_factor], the saved depth and the iterator as
    they were. *)
Theorem channel_methods_keep_warm_up_state (s : Sys) (fuel : nat)
    (supplied : option ref) (out : value) (w : Z) :
  warm_up_state (self (snd (channel_get out s))) = warm_up_state (self s) /\
  warm_up_state (self (snd (reset_channel fuel supplied s))) = warm_up_state (self s) /\
  warm_up_state (self (snd (worker_init_fn w s))) = warm_up_state (self s).
Proof.
  set (J := fun l => warm_up_state l = warm_up_state (self s)).
  assert (HJ : J (self s)) by reflexivity.
  split; [|split].
  - now apply (stable_channel_get J out s).
  - apply (stable_reset_channel J); frame_side HJ.
  - apply (stable_worker_init_fn J); frame_side HJ.
Qed.

(** ** More on the channel reset *)

(** X8. A reset empties the current channel only: every other queue,
    among them a supplied channel, keeps its messages. *)
Theorem reset_channel_keeps_other_queues (fuel : nat) (supplied : option ref)
    (s : Sys) (q : ref) (msgs : list value) :
  channel (self s) = Some q ->
  queues s !! q = Some msgs ->
  (length msgs < fuel)%nat ->
  forall q' ms,
    q' <> q -> queues s !! q' = Some ms ->
    queues (snd (reset_channel fuel supplied s)) !! q' = Some ms.
Proof.
  intros Hc Hq Hf q' ms Hne Hq'.
  destruct (reset_channel_store fuel supplied s q msgs Hc Hq Hf) as [-> _].
  assert (Hlt : (q' < length (queues s))%nat) by (eapply lookup_lt_Some; eauto).
  cbn. destruct supplied.
  - now rewrite list_lookup_insert_ne.
  - rewrite lookup_app_l by (rewrite length_insert; lia).
    now rewrite list_lookup_insert_ne.
Qed.

Lemma reset_channel_keeps_other_queues_witness :
  queues (snd (reset_channel 2 (Some 1%nat) two_queue_sys)) !! 1%nat
  = Some [VStr "a"; VStr "b"].
Proof.
  apply (reset_channel_keeps_other_queues 2 (Some 1%nat) two_queue_sys 0%nat [VInt 1]).
  - reflexivity.
  - reflexivity.
  - cbn. lia.
  - discriminate.
  - reflexivity.
Defined.

(** X9. A supplied channel is installed with what it holds: after
    [reset_channel(c)] on a loader with a sampler, for [c] another queue
    than the current one, the sampler writes to [c] and the next
    [channel_get] returns the oldest message of [c]. *)
Theorem reset_channel_supplied_is_read (fuel : nat) (s : Sys) (q c : ref)
    (msgs rest : list value) (m out : value) (smp : DistNeighborSampler) :
  channel (self s) = Some q ->
  queues s !! q = Some msgs ->
  dist_sampler (self s) = Some smp ->
  (length msgs < fuel)%nat ->
  c <> q ->
  queues s !! c = Some (m :: rest) ->
  exists s' smp',
    reset_channel fuel (Some c) s = (Return tt, s') /\
    dist_sampler (self s') = Some smp' /\ sampler_channel smp' = Some c /\
    fst (channel_get out s') = Return m.
Proof.
  intros Hc Hq Hs Hf Hne Hqc.
  rewrite (reset_channel_run fuel (Some c) s q msgs Hc Hq Hf).
  erewrite propagate_channel_run by (cbn; eauto).
  eexists. eexists. split; [reflexivity|]. cbn.
  split; [reflexivity|]. split; [reflexivity|].
  unfold channel_get, bind, get_self, queue_get, read_queue, get_queues, bind. cbn.
  unfold ref in *. rewrite list_lookup_insert_ne by auto. now rewrite Hqc.
Qed.

Lemma reset_channel_supplied_is_read_witness :
  exists s' smp',
    reset_channel 2 (Some 1%nat) two_queue_sys = (Return tt, s') /\
    dist_sampler (self s') = Some smp' /\ sampler_channel smp' = Some 1%nat /\
    fst (channel_get VNone s') = Return (VStr "a").
Proof.
  apply (reset_channel_supplied_is_read 2 two_queue_sys 0%nat 1%nat [VInt 1]
           [VStr "b"] (VStr "a") VNone sampler0).
  - reflexivity.
  - reflexivity.
  - reflexivity.
  - cbn. lia.
  - discriminate.
  - reflexivity.
Defined.

(** X10. Supplying the current channel reuses it: [reset_channel(q)] on a
    loader whose channel is [q] keeps [q] as the channel, allocates no
    queue, and leaves [q] empty. *)
Theorem reset_channel_reuses_current (fuel : nat) (s : Sys) (q : ref)
    (msgs : list value) :
  channel (self s) = Some q ->
  queues s !! q = Some msgs ->
  (length msgs < fuel)%nat ->
  let s' := snd (reset_channel fuel (Some q) s) in
  channel (self s') = Some q /\
  queues s' = <[q := []]> (queues s) /\
  length (queues s') = length (queues s).
Proof.
  intros Hc Hq Hf s'.
  destruct (reset_channel_store fuel (Some q) s q msgs Hc Hq Hf) as [Hst Hch].
  fold s' in Hst, Hch. cbn in Hst, Hch.
  split; [exact Hch|]. split; [exact Hst|].
  now rewrite Hst, length_insert.
Qed.

Lemma reset_channel_reuses_current_witness :
  let s' := snd (reset_channel 3 (Some 0%nat) busy_sys) in
  channel (self s') = Some 0%nat /\
  queues s' = <[0%nat := []]> (queues busy_sys) /\
  length (queues s') = length (queues busy_sys).
Proof.
  apply (reset_channel_reuses_current 3 busy_sys 0%nat [VInt 1; VStr "batch"]).
  - reflexivity.
  - reflexivity.
  - cbn. lia.
Defined.

(** X11. After [reset_channel()] with no channel supplied, on a loader with
    a sampler, a read waits for the sampler: [channel_get] is blocked, a
    message put on the old queue does not unblock it, and a message put on
    the queue the sampler now refers to is what it returns. *)
Theorem reset_channel_then_read (fuel : nat) (s : Sys) (q : ref)
    (msgs : list value) (smp : DistNeighborSampler) (out : value) :
  channel (self s) = Some q ->
  queues s !! q = Some msgs ->
  dist_sampler (self s) = Some smp ->
  (length msgs < fuel)%nat ->
  exists s' smp' new,
    reset_channel fuel None s = (Return tt, s') /\
    dist_sampler (self s') = Some smp' /\ sampler_channel smp' = Some new /\
    channel_get out s' = (Blocked, s') /\
    forall m,
      fst (channel_get out (queue_put q m s')) = Blocked /\
      fst (channel_get out (queue_put new m s')) = Return m.
Proof.
  intros Hc Hq Hs Hf.
  assert (Hlt : (q < length (queues s))%nat) by (eapply lookup_lt_Some; eauto).
  rewrite (reset_channel_run fuel None s q msgs Hc Hq Hf).
  erewrite propagate_channel_run by (cbn; eauto).
  eexists. eexists. exists (length (queues s)). split; [reflexivity|]. cbn.
  split; [reflexivity|]. split; [reflexivity|].
  assert (Hnew : (<[q := []]> (queues s) ++ [[]]) !! length (queues s)
                 = Some (@nil value)).
  { rewrite lookup_app_r by (rewrite length_insert; lia).
    now rewrite length_insert, Nat.sub_diag. }
  assert (Hold : (<[q := []]> (queues s) ++ [[]]) !! q = Some (@nil value)).
  { rewrite lookup_app_l by (rewrite length_insert; lia).
    now apply list_lookup_insert_eq. }
  split.
  - unfold channel_get, bind, get_self, queue_get, read_queue, get_queues, bind. cbn.
    unfold ref in *. now rewrite Hnew.
  - intros m. split.
    + unfold channel_get, bind, get_self, queue_put, queue_get, read_queue,
        get_queues, bind. cbn. unfold ref in *. rewrite Hold. cbn.
      rewrite list_lookup_insert_ne by lia. now rewrite Hnew.
    + unfold channel_get, bind, get_self, queue_put, queue_get, read_queue,
        get_queues, bind. cbn. unfold ref in *. rewrite Hnew. cbn.
      rewrite list_lookup_insert_eq by (rewrite length_app, length_insert; cbn; lia).
      reflexivity.
Qed.

Lemma reset_channel_then_read_witness :
  exists s' smp' new,
    reset_channel 3 None busy_sys = (Return tt, s') /\
    dist_sampler (self s') = Some smp' /\ sampler_channel smp' = Some new /\
    channel_get VNone s' = (Blocked, s') /\
    forall m,
      fst (channel_get VNone (queue_put 0%nat m s')) = Blocked /\
      fst (channel_get VNone (queue_put new m s')) = Return m.
Proof.
  apply (reset_channel_then_read 3 busy_sys 0%nat [VInt 1; VStr "batch"] sampler0 VNone).
  - reflexivity.
  - reflexivity.
  - reflexivity.
  - cbn. lia.
Defined.

(** ** Reading in order *)

Lemma channel_get_pop (out : value) (s : Sys) (q : ref) (m : value) (rest : list value) :
  channel (self s) = Some q ->
  queues s !! q = Some (m :: rest) ->
  channel_get out s =
  (Return m,
   mkSys (self s) (<[q := rest]> (queues s)) (iterators_made s)
         (trace s ++ [EvGet q m])).
Proof.
  intros Hc Hq.
  unfold channel_get, bind, get_self, queue_get, read_queue, get_queues, bind.
  cbn. rewrite Hc. cbn. now rewrite Hq.
Qed.

Lemma channel_get_wait (out : value) (s : Sys) (q : ref) :
  channel (self s) = Some q ->
  queues s !! q = Some [] ->
  channel_get out s = (Blocked, s).
Proof.
  intros Hc Hq.
  unfold channel_get, bind, get_self, queue_get, read_queue, get_queues, bind.
  cbn. rewrite Hc. cbn. now rewrite Hq.
Qed.

(** X12. Reads are first in, first out: on a channel that holds [msgs],
    [n] successive calls of [channel_get], for [n] at most the number of
    messages, return the first [n] messages in their order and leave the
    others in the queue; one call more than there are messages is blocked. *)
Theorem channel_get_n_fifo (n : nat) (out : value) :
  forall (s : Sys) (q : ref) (msgs : list value),
    channel (self s) = Some q ->
    queues s !! q = Some msgs ->
    ((n <= length msgs)%nat ->
     channel_get_n n out s =
     (Return (take n msgs),
      mkSys (self s) (<[q := drop n msgs]> (queues s)) (iterators_made s)
            (trace s ++ map (EvGet q) (take n msgs)))) /\
    ((length msgs < n)%nat -> fst (channel_get_n n out s) = Blocked).
Proof.
  induction n as [|n IH]; intros s q msgs Hc Hq.
  - split; [|lia]. intros _. cbn. unfold ret.
    rewrite list_insert_id by exact Hq. rewrite app_nil_r. now destruct s.
  - assert (Hlt : (q < length (queues s))%nat) by (eapply lookup_lt_Some; eauto).
    destruct msgs as [|m rest].
    + split; [cbn; lia|]. intros _. cbn [channel_get_n].
      unfold bind at 1. now rewrite (channel_get_wait out s q Hc Hq).
    + cbn [channel_get_n].
      erewrite bind_return by (eapply channel_get_pop; eassumption).
      set (s1 := mkSys (self s) (<[q := rest]> (queues s)) (iterators_made s)
                       (trace s ++ [EvGet q m])).
      destruct (IH s1 q rest Hc) as [Hok Hblock];
        [cbn; now apply list_lookup_insert_eq|].
      split.
      * intros Hn. cbn in Hn.
        erewrite bind_return by (apply Hok; lia).
        unfold ret, s1. cbn. rewrite list_insert_insert_eq, <- app_assoc. reflexivity.
      * intros Hn. cbn in Hn. specialize (Hblock ltac:(lia)).
        unfold bind at 1.
        destruct (channel_get_n n out s1) as [[ms| | |] s2];
          cbn in Hblock; try discriminate.
        reflexivity.
Qed.

Lemma channel_get_n_fifo_witness :
  channel_get_n 2 VNone two_queue_sys_b =
  (Return [VStr "a"; VStr "b"],
   mkSys (self two_queue_sys_b) [[VInt 1]; [VStr "c"]] 0
         [EvGet 1%nat (VStr "a"); EvGet 1%nat (VStr "b")]) /\
  fst (channel_get_n 4 VNone two_queue_sys_b) = Blocked.
Proof.
  destruct (channel_get_n_fifo 2 VNone two_queue_sys_b 1%nat
              [VStr "a"; VStr "b"; VStr "c"] eq_refl eq_refl) as [H2 _].
  destruct (channel_get_n_fifo 4 VNone two_queue_sys_b 1%nat
              [VStr "a"; VStr "b"; VStr "c"] eq_refl eq_refl) as [_ H4].
  split.
  - rewrite H2 by (cbn; lia). reflexivity.
  - apply H4. cbn. lia.
Defined.

(** ** More on the warm-up scope *)

Lemma exit_unfold (fuel : nat) (s : Sys) :
  __exit__ fuel s =
  (match channel (self s) with
   | Some _ => reset_channel fuel None
   | None => ret tt
   end >> exit_tail) s.
Proof. reflexivity. Qed.

(** A call of [__exit__] that returns went through a reset that returned,
    when there is a channel, and then through the rest. *)
Lemma exit_returns_inv (fuel : nat) (s s' : Sys) :
  __exit__ fuel s = (Return tt, s') ->
  exists s1,
    match channel (self s) with
    | Some _ => reset_channel fuel None s = (Return tt, s1)
    | None => s1 = s
    end /\
    exit_tail s1 = (Return tt, s').
Proof.
  rewrite exit_unfold. unfold bind at 1.
  destruct (channel (self s)) as [q|].
  - destruct (reset_channel fuel None s) as [[[]| | |] s1]; try discriminate.
    intros H. now exists s1.
  - cbn. intros H. now exists s.
Qed.

Lemma exit_tail_returns_inv (s s' : Sys) :
  exit_tail s = (Return tt, s') ->
  if iterator_true (self s)
  then exists d,
         _prefetch_old (self s) = Attr d /\
         s' = mkSys (set_prefetch_factor d (set_iterator (Attr None) (self s)))
                    (queues s) (iterators_made s)
                    (trace s ++ [EvDelIterator; EvBarrier])
  else s' = s.
Proof.
  unfold exit_tail, iterator_attr_truthy, iterator_true, bind, get_self. cbn.
  destruct (_iterator (self s)) as [|[it|]]; cbn; try discriminate.
  - destruct (iterator_truthy it); cbn.
    + destruct (_prefetch_old (self s)) as [|d]; cbn; [discriminate|].
      intros [= <-]. exists d. split; [reflexivity|].
      now rewrite <- app_assoc.
    + now intros [= <-].
  - now intros [= <-].
Qed.

Lemma barriers_app (t1 t2 : list event) :
  barriers (t1 ++ t2) = (barriers t1 + barriers t2)%nat.
Proof.
  induction t1 as [|e t1 IH]; [reflexivity|].
  destruct e; cbn; rewrite IH; reflexivity.
Qed.

Lemma barriers_drain (q : ref) (msgs : list value) : barriers (drain_events q msgs) = 0%nat.
Proof. induction msgs as [|m msgs IH]; [reflexivity|exact IH]. Qed.

(** X13. How many barriers a returning [__exit__] passes depends on the
    loader's own state: one for the reset when it has a channel, and one
    after the iterator is deleted when the iterator is true; a loader with
    neither passes no barrier at all. *)
Theorem exit_barrier_count (fuel : nat) (s s' : Sys) :
  __exit__ fuel s = (Return tt, s') ->
  barriers (trace s') =
  (barriers (trace s)
   + (match channel (self s) with Some _ => 1 | None => 0 end)
   + (if iterator_true (self s) then 1 else 0))%nat.
Proof.
  intros Hrun.
  destruct (exit_returns_inv fuel s s' Hrun) as (s1 & Hreset & Htail).
  apply exit_tail_returns_inv in Htail.
  assert (H1 : barriers (trace s1) =
               (barriers (trace s) + (match channel (self s) with Some _ => 1 | None => 0 end))%nat /\
               iterator_true (self s1) = iterator_true (self s)).
  { destruct (channel (self s)) as [q0|] eqn:Hc.
    - destruct (reset_channel_returns_inv fuel None s s1 Hreset)
        as (q & msgs & smp & Hc' & Hq & Hs & Hf).
      rewrite (reset_channel_run fuel None s q msgs Hc' Hq Hf) in Hreset.
      erewrite propagate_channel_run in Hreset by (cbn; eauto).
      injection Hreset as <-. cbn. split; [|reflexivity].
      rewrite !barriers_app, barriers_drain. cbn. lia.
    - subst s1. split; [lia|reflexivity]. }
  destruct H1 as [Hb Hi]. rewrite Hi in Htail.
  destruct (iterator_true (self s)).
  - destruct Htail as (d & _ & ->). cbn. rewrite barriers_app, Hb. cbn. lia.
  - subst s'. rewrite Hb. lia.
Qed.

Lemma exit_barrier_count_witness :
  barriers (trace (snd (__exit__ 1 plain_sys))) = 1%nat /\
  barriers (trace (snd (__exit__ 3 (snd (__enter__ busy_sys))))) = 2%nat.
Proof.
  split.
  - rewrite (exit_barrier_count 1 plain_sys (snd (__exit__ 1 plain_sys)));
      [reflexivity|vm_compute; reflexivity].
  - rewrite (exit_barrier_count 3 (snd (__enter__ busy_sys))
               (snd (__exit__ 3 (snd (__enter__ busy_sys)))));
      [reflexivity|vm_compute; reflexivity].
Defined.

(** X14. The scope is not re-entrant: a second [__enter__] saves the depth 1
    that the first one has set, and replaces the stored iterator by another
    new one; an [__exit__] after that restores the depth 1, not the depth
    the loader had before. *)
Theorem enter_twice_loses_depth (s : Sys) :
  exists it1 it2 s2,
    (let* a := __enter__ in let* b := __enter__ in ret (a, b)) s = (Return (it1, it2), s2) /\
    iter_id it2 = S (iter_id it1) /\
    _iterator (self s2) = Attr (Some it2) /\
    _prefetch_old (self s2) = Attr 1 /\
    forall fuel s3,
      _iterator (self s3) = _iterator (self s2) ->
      _prefetch_old (self s3) = _prefetch_old (self s2) ->
      iterator_truthy it2 = true ->
      reset_can_run fuel s3 ->
      exists s4, __exit__ fuel s3 = (Return tt, s4) /\ prefetch_factor (self s4) = 1.
Proof.
  eexists. eexists. eexists. split; [reflexivity|]. cbn.
  split; [reflexivity|]. split; [reflexivity|]. split; [reflexivity|].
  intros fuel s3 Hi Hd Ht Hr.
  destruct (exit_restores fuel s3 _ 1 Hi Ht Hd Hr) as (s4 & Hrun & Hp & _).
  now exists s4.
Qed.

Lemma enter_twice_loses_depth_witness :
  exists s4,
    (__enter__ >> __enter__ >> __exit__ 3) busy_sys = (Return tt, s4) /\
    prefetch_factor (self busy_sys) = 8 /\
    prefetch_factor (self s4) = 1.
Proof.
  destruct (enter_twice_loses_depth busy_sys) as (it1 & it2 & s2 & Hrun & _ & _ & _ & Hexit).
  vm_compute in Hrun. injection Hrun as <- <- <-.
  destruct (Hexit 3%nat (snd ((__enter__ >> __enter__) busy_sys))) as (s4 & Hrun & Hp).
  - reflexivity.
  - reflexivity.
  - reflexivity.
  - right. exists 0%nat, [VInt 1; VStr "batch"], sampler0. repeat split. cbn. lia.
  - exists s4. split; [|split; [reflexivity|exact Hp]].
    rewrite <- Hrun. reflexivity.
Defined.

(** With the scope state in place the rest of [__exit__] returns, and does
    not touch the channel, the sampler or the queues. *)
Lemma exit_tail_run (s : Sys) (i : option DataLoaderIterator) (d : Z) :
  _iterator (self s) = Attr i ->
  _prefetch_old (self s) = Attr d ->
  exists s',
    exit_tail s = (Return tt, s') /\
    channel (self s') = channel (self s) /\
    dist_sampler (self s') = dist_sampler (self s) /\
    queues s' = queues s.
Proof.
  intros Hi Hd.
  unfold exit_tail, iterator_attr_truthy, bind, get_self. cbn. rewrite Hi.
  destruct i as [it|]; cbn.
  - destruct (iterator_truthy it); cbn.
    + rewrite Hd. cbn. eexists. split; [reflexivity|]. cbn. auto.
    + eexists. split; [reflexivity|]. auto.
  - eexists. split; [reflexivity|]. auto.
Qed.

(** X15. With a channel, [__exit__] never keeps it: on a loader with a
    sampler, whose scope state is in place, [__exit__] returns with a new,
    empty queue as the channel of both the loader and the sampler; what the
    old queue held (the warm-up batch) is discarded, and the next
    [channel_get] is blocked until the sampler produces again. *)
Theorem exit_replaces_channel (fuel : nat) (s : Sys) (q : ref) (msgs : list value)
    (smp : DistNeighborSampler) (i : option DataLoaderIterator) (d : Z) (out : value) :
  channel (self s) = Some q ->
  queues s !! q = Some msgs ->
  dist_sampler (self s) = Some smp ->
  (length msgs < fuel)%nat ->
  _iterator (self s) = Attr i ->
  _prefetch_old (self s) = Attr d ->
  exists s' smp' new,
    __exit__ fuel s = (Return tt, s') /\
    new <> q /\
    channel (self s') = Some new /\
    dist_sampler (self s') = Some smp' /\ sampler_channel smp' = Some new /\
    queues s' !! q = Some [] /\
    queues s' !! new = Some [] /\
    channel_get out s' = (Blocked, s').
Proof.
  intros Hc Hq Hs Hf Hi Hd.
  assert (Hlt : (q < length (queues s))%nat) by (eapply lookup_lt_Some; eauto).
  rewrite exit_unfold, Hc.
  erewrite bind_return
    by (rewrite (reset_channel_run fuel None s q msgs Hc Hq Hf);
        apply (propagate_channel_run _ smp); [exact Hs|reflexivity]).
  match goal with
  | |- exists s' smp' new, exit_tail ?s1 = _ /\ _ =>
      destruct (exit_tail_run s1 i d Hi Hd) as (s' & Hrun & Hch & Hsm & Hqs)
  end.
  cbn in Hch, Hsm, Hqs.
  assert (Hnew : queues s' !! length (queues s) = Some (@nil value)).
  { rewrite Hqs, lookup_app_r by (rewrite length_insert; lia).
    now rewrite length_insert, Nat.sub_diag. }
  assert (Hold : queues s' !! q = Some (@nil value)).
  { rewrite Hqs, lookup_app_l by (rewrite length_insert; lia).
    now apply list_lookup_insert_eq. }
  exists s'. eexists. exists (length (queues s)).
  split; [exact Hrun|]. split; [lia|]. split; [exact Hch|].
  split; [exact Hsm|]. split; [reflexivity|]. split; [exact Hold|].
  split; [exact Hnew|].
  now apply (channel_get_wait out s' (length (queues s))).
Qed.

Lemma exit_replaces_channel_witness :
  exists s' smp' new,
    __exit__ 3 (snd (__enter__ busy_sys)) = (Return tt, s') /\
    new <> 0%nat /\
    channel (self s') = Some new /\
    dist_sampler (self s') = Some smp' /\ sampler_channel smp' = Some new /\
    queues s' !! 0%nat = Some [] /\
    queues s' !! new = Some [] /\
    channel_get VNone s' = (Blocked, s').
Proof.
  apply (exit_replaces_channel 3 (snd (__enter__ busy_sys)) 0%nat
           [VInt 1; VStr "batch"] sampler0 (Some (mkIterator 0 5)) 8 VNone).
  - reflexivity.
  - reflexivity.
  - reflexivity.
  - cbn. lia.
  - reflexivity.
  - reflexivity.
Defined.

(** X16. After a complete [__exit__] the iterator attribute is [None], and
    leaving again is harmless: a further [__exit__] that returns leaves the
    prefetch depth, the saved depth and the iterator as they are and passes
    no barrier for the iterator; without channel it changes nothing at
    all. *)
Theorem exit_again_is_harmless (fuel : nat) (s : Sys) :
  _iterator (self s) = Attr None ->
  (channel (self s) = None -> __exit__ fuel s = (Return tt, s)) /\
  (forall s',
     __exit__ fuel s = (Return tt, s') ->
     warm_up_state (self s') = warm_up_state (self s) /\
     barriers (trace s') =
       (barriers (trace s) + match channel (self s) with Some _ => 1 | None => 0 end)%nat).
Proof.
  intros Hi. split.
  - intros Hc. rewrite exit_unfold, Hc.
    unfold exit_tail, iterator_attr_truthy, bind, get_self. cbn. now rewrite Hi.
  - intros s' Hrun.
    destruct (exit_returns_inv fuel s s' Hrun) as (s1 & Hreset & Htail).
    apply exit_tail_returns_inv in Htail.
    assert (H1 : warm_up_state (self s1) = warm_up_state (self s) /\
                 barriers (trace s1) =
                 (barriers (trace s)
                  + match channel (self s) with Some _ => 1 | None => 0 end)%nat).
    { destruct (channel (self s)) as [q0|] eqn:Hc.
      - destruct (reset_channel_returns_inv fuel None s s1 Hreset)
          as (q & msgs & smp & Hc' & Hq & Hs & Hf).
        rewrite (reset_channel_run fuel None s q msgs Hc' Hq Hf) in Hreset.
        erewrite propagate_channel_run in Hreset by (cbn; eauto).
        injection Hreset as <-. cbn. split; [reflexivity|].
        rewrite !barriers_app, barriers_drain. cbn. lia.
      - subst s1. split; [reflexivity|lia]. }
    destruct H1 as [Hw Hb].
    assert (Hit : iterator_true (self s1) = false).
    { unfold iterator_true. injection Hw as _ _ ->. now rewrite Hi. }
    rewrite Hit in Htail. subst s'. auto.
Qed.

Lemma exit_again_is_harmless_witness :
  exists s1,
    __exit__ 1 plain_sys = (Return tt, s1) /\
    __exit__ 1 s1 = (Return tt, s1).
Proof.
  eexists. split; [reflexivity|].
  apply (exit_again_is_harmless 1); reflexivity.
Defined.

(** ** More on the representation *)

Lemma string_app_cancel_r (x y : string) (c : ascii) :
  x +:+ String c "" = y +:+ String c "" -> x = y.
Proof.
  revert y. induction x as [|a x IH]; intros [|b y]; cbn.
  - reflexivity.
  - intros [= <- H]. now destruct y.
  - intros [= -> H]. now destruct x.
  - intros [= -> H]. f_equal. now apply IH.
Qed.

Lemma format_int_inj (z1 z2 : Z) : format_int z1 = format_int z2 -> z1 = z2.
Proof.
  intros E.
  pose proof (format_int_parses z1) as H1. rewrite E, format_int_parses in H1.
  injection H1 as H1.
  now rewrite <- (DecimalZ.of_to z1), <- (DecimalZ.of_to z2), H1.
Qed.

(** X17. The representation tells the processes apart: two loaders of the
    same class with the same representation have the same pid. *)
Theorem repr_determines_pid (l1 l2 : DistLoader) :
  class_name l1 = class_name l2 ->
  repr l1 = repr l2 ->
  pid l1 = pid l2.
Proof.
  unfold repr. intros -> E.
  apply (inj (String.append (class_name l2))) in E.
  cbn in E. injection E as E.
  now apply format_int_inj, (string_app_cancel_r _ _ ")"%char).
Qed.

Lemma repr_determines_pid_witness :
  pid (self busy_sys) = pid (self plain_sys).
Proof.
  apply (repr_determines_pid (self busy_sys) (self plain_sys)); reflexivity.
Defined.
